(** * Webhook handlers of the Saleor apps: a shallow embedding

    Two request handlers are modelled here:

    - [Avatax.handler]: the CHECKOUT_CALCULATE_TAXES synchronous webhook of
      the AvaTax app
      (apps/avatax/src/pages/api/webhooks/checkout-calculate-taxes.ts);
    - [Typesense.webhooksStatusHandlerFactory]: the webhooks-status endpoint of the
      Typesense app (apps/typesense/src/pages/api/webhooks-status.ts).

    Both are orchestration code over collaborators (logger, Sentry, the
    config extractor, the use case, the HTTP response object).  The
    embedding threads an explicit [World] that records every observable
    effect, and an exception channel for JavaScript [throw].  Effects that
    happened before a [throw] stay in the world, as they do in JavaScript. *)

From Stdlib Require Import String List ZArith Bool Lia.
From ExtLib Require Import Structures.Monad Structures.MonadExc.
Import ListNotations.
Import MonadNotation.

Local Open Scope monad_scope.
Local Open Scope Z_scope.
Local Open Scope list_scope.
Local Open Scope string_scope.

Set Implicit Arguments.

(** ** JavaScript values common to both handlers *)

(** The error classes the handlers test for ([err.constructor],
    [instanceof]).  Classes the handlers never name are [OtherErrorClass].
    Instances of subclasses of the named classes are not modelled, so
    [instanceof] coincides with equality of the class tag. *)
Inductive ErrorClass : Type :=
| FailedCalculatingTaxesError
| ConfigBrokenError
| ExpectedIncompletePayloadError
| UnhandledError
| AvataxInvalidAddressError
| LogConfigurationMetricError
| OtherErrorClass (name : string).

(** A thrown (or returned) error object: its class, its message and the
    [cause] option of the error constructor. *)
#[warnings="-register-all"]
Inductive JsError : Type :=
| mkError (class : ErrorClass) (message : string) (cause : option JsError).

Definition constructor (e : JsError) : ErrorClass :=
  match e with mkError c _ _ => c end.

Definition instanceofAvataxInvalidAddressError (e : JsError) : bool :=
  match constructor e with
  | AvataxInvalidAddressError => true
  | _ => false
  end.

(** neverthrow's [Result]. *)
Inductive Result (T E : Type) : Type :=
| Ok (value : T)
| Err (error : E).

Arguments Ok {T E} value.
Arguments Err {T E} error.

Definition isErr {T E} (r : Result T E) : bool :=
  match r with Ok _ => false | Err _ => true end.

(** How a statement completes: normally with a value, or abruptly by
    [throw]. *)
Inductive Completion (A : Type) : Type :=
| Normal (value : A)
| Throw (error : JsError).

Arguments Normal {A} value.
Arguments Throw {A} error.

(** The state of a promise once it has settled.  A request is a single
    sequential task, so a promise is represented by its settlement. *)
Inductive Settled (A : Type) : Type :=
| Fulfilled (value : A)
| Rejected (reason : JsError).

Arguments Fulfilled {A} value.
Arguments Rejected {A} reason.

(** ** The effect monad: a world threaded through, plus [throw] *)

Definition Js (W A : Type) : Type := W -> Completion A * W.

Definition Js_ret {W A} (a : A) : Js W A := fun w => (Normal a, w).

Definition Js_bind {W A B} (m : Js W A) (k : A -> Js W B) : Js W B :=
  fun w =>
    match m w with
    | (Normal a, w') => k a w'
    | (Throw e, w') => (Throw e, w')
    end.

Definition Js_throw {W A} (e : JsError) : Js W A := fun w => (Throw e, w).

(** [try { m } catch (e) { h e }]: the handler starts from the world the
    body left behind. *)
Definition Js_try {W A} (m : Js W A) (h : JsError -> Js W A) : Js W A :=
  fun w =>
    match m w with
    | (Normal a, w') => (Normal a, w')
    | (Throw e, w') => h e w'
    end.

#[global] Instance Monad_Js {W} : Monad (Js W) :=
  {| ret := @Js_ret W; bind := @Js_bind W |}.

#[global] Instance MonadExc_Js {W} : MonadExc JsError (Js W) :=
  {| raise := @Js_throw W; catch := @Js_try W |}.

(** The final world of a run. *)
Definition exec {W A} (m : Js W A) (w : W) : W := snd (m w).

(** The completion of a run. *)
Definition completion {W A} (m : Js W A) (w : W) : Completion A := fst (m w).

(** [msg] mentions [sub]: [sub] occurs in it as a substring. *)
Definition mentions (msg sub : string) : Prop :=
  exists before after, msg = before ++ sub ++ after.

(** ** The AvaTax checkout-calculate-taxes webhook *)

Module Avatax.

Section Handler.

(** Types owned by collaborators whose code is outside this file: the
    use case's success value, the decoded tenant configuration, the
    config extractor's error, and the response payload the platform SDK
    builds. *)
Variables TaxValue AppConfig ConfigError ResponsePayload : Type.

(** [ObservabilityAttributes.SALEOR_VERSION], a string constant of the
    otel package. *)
Variable SALEOR_VERSION : string.

(** *** The inbound payload and the request context *)

Record MetadataItem : Type := { key : string; value : string }.

Record Channel : Type := { slug : string }.
Record SourceObject : Type := { id : string }.
Record TaxBase : Type := { channel : Channel; sourceObject : SourceObject }.
Record Recipient : Type := { privateMetadata : option (list MetadataItem) }.

Record Payload : Type := {
  taxBase : TaxBase;
  recipient : option Recipient;
  version : option string
}.

Record AuthData : Type := {
  saleorApiUrl : string;
  token : string;
  appId : string
}.

(** [ctx] of the handler: the payload, the auth data and the SDK's
    [buildResponse]. *)
Record Context : Type := {
  payload : Payload;
  authData : AuthData;
  buildResponse : TaxValue -> ResponsePayload
}.

(** *** Observable effects *)

Inductive LogLevel : Type := info | warn.

Record LogEntry : Type := { level : LogLevel; text : string }.

(** A JSON response body: [{message: ...}] or the payload built by
    [ctx.buildResponse]. *)
Inductive Body : Type :=
| JsonMessage (message : string)
| JsonPayload (built : ResponsePayload).

Record Response : Type := { status : Z; body : Body }.

Record World : Type := {
  logs : list LogEntry;
  loggerContext : list (string * string);
  sentryTags : list (string * string);
  captured : list JsError;
  metadataCache : option (list MetadataItem);
  useCaseCalls : list (Payload * AuthData);
  responses : list Response
}.

Definition emptyWorld : World :=
  {| logs := []; loggerContext := []; sentryTags := []; captured := [];
     metadataCache := None; useCaseCalls := []; responses := [] |}.

Local Abbreviation JsM := (Js World).

(** World updates, one per kind of effect. *)

Definition addLogs (entries : list LogEntry) (w : World) : World :=
  {| logs := (logs w ++ entries)%list;
     loggerContext := loggerContext w; sentryTags := sentryTags w;
     captured := captured w; metadataCache := metadataCache w;
     useCaseCalls := useCaseCalls w; responses := responses w |}.

Definition addLoggerContext (k v : string) (w : World) : World :=
  {| logs := logs w;
     loggerContext := (loggerContext w ++ [(k, v)])%list;
     sentryTags := sentryTags w;
     captured := captured w; metadataCache := metadataCache w;
     useCaseCalls := useCaseCalls w; responses := responses w |}.

Definition addSentryTag (k v : string) (w : World) : World :=
  {| logs := logs w; loggerContext := loggerContext w;
     sentryTags := (sentryTags w ++ [(k, v)])%list;
     captured := captured w; metadataCache := metadataCache w;
     useCaseCalls := useCaseCalls w; responses := responses w |}.

Definition addCaptured (errors : list JsError) (w : World) : World :=
  {| logs := logs w; loggerContext := loggerContext w;
     sentryTags := sentryTags w;
     captured := (captured w ++ errors)%list;
     metadataCache := metadataCache w;
     useCaseCalls := useCaseCalls w; responses := responses w |}.

Definition storeMetadata (md : list MetadataItem) (w : World) : World :=
  {| logs := logs w; loggerContext := loggerContext w;
     sentryTags := sentryTags w; captured := captured w;
     metadataCache := Some md;
     useCaseCalls := useCaseCalls w; responses := responses w |}.

Definition addUseCaseCall (p : Payload) (a : AuthData) (w : World) : World :=
  {| logs := logs w; loggerContext := loggerContext w;
     sentryTags := sentryTags w; captured := captured w;
     metadataCache := metadataCache w;
     useCaseCalls := (useCaseCalls w ++ [(p, a)])%list;
     responses := responses w |}.

Definition addResponse (r : Response) (w : World) : World :=
  {| logs := logs w; loggerContext := loggerContext w;
     sentryTags := sentryTags w; captured := captured w;
     metadataCache := metadataCache w;
     useCaseCalls := useCaseCalls w;
     responses := (responses w ++ [r])%list |}.

(** [logger.info] and [logger.warn]. *)
Definition log (l : LogLevel) (msg : string) : JsM unit :=
  fun w => (Normal tt, addLogs [{| level := l; text := msg |}] w).

(** [loggerContext.set]. *)
Definition loggerContext_set (k v : string) : JsM unit :=
  fun w => (Normal tt, addLoggerContext k v w).

(** [Sentry.setTag]. *)
Definition Sentry_setTag (k v : string) : JsM unit :=
  fun w => (Normal tt, addSentryTag k v w).

(** [captureException] of @sentry/nextjs (also reached as
    [Sentry.captureException]). *)
Definition captureException (e : JsError) : JsM unit :=
  fun w => (Normal tt, addCaptured [e] w).

(** Modelled from the spec: [metadataCache.setMetadata] of
    lib/app-metadata-cache, which is not under src/.  Section 4.2: the
    cache holds the raw metadata list, set once per request by the
    handler before the use case is invoked. *)
Definition setMetadata (md : list MetadataItem) : JsM unit :=
  fun w => (Normal tt, storeMetadata md w).

(** [res.status(s).json(b)]. *)
Definition respond (s : Z) (b : Body) : JsM unit :=
  fun w => (Normal tt, addResponse {| status := s; body := b |} w).

Definition recordUseCaseCall (p : Payload) (a : AuthData) : JsM unit :=
  fun w => (Normal tt, addUseCaseCall p a w).

(** *** Collaborators *)

(** What one call of [subscriptionErrorChecker.checkPayload] does.  The
    checker is constructed with the logger and [captureException], so it
    can log, report errors, and (like any call) throw. *)
Record CheckerRun : Type := {
  checkerLogged : list LogEntry;
  checkerReported : list JsError;
  checkerThrown : option JsError
}.

(** What one call of [AppConfigurationLogger.logConfiguration] does: it
    is constructed with the logger only. *)
Record LoggerRun : Type := {
  loggerLogged : list LogEntry;
  loggerThrown : option JsError
}.

(** What one call of [useCase.calculateTaxes] does: throw before
    returning a promise, or return a promise that rejects or that
    fulfils with a [Result]. *)
Inductive UseCaseCall : Type :=
| ThrowsSync (e : JsError)
| Rejects (e : JsError)
| Resolves (r : Result TaxValue JsError).

Record Collaborators : Type := {
  checkPayload : Payload -> CheckerRun;
  extractAppConfigFromPrivateMetadata :
    list MetadataItem -> Completion (Result AppConfig ConfigError);
  logConfiguration : AppConfig -> string -> LoggerRun;
  calculateTaxes : Payload -> AuthData -> UseCaseCall
}.

Fixpoint logAll (entries : list LogEntry) : JsM unit :=
  match entries with
  | [] => ret tt
  | e :: rest => log (level e) (text e) ;; logAll rest
  end.

Fixpoint captureAll (errors : list JsError) : JsM unit :=
  match errors with
  | [] => ret tt
  | e :: rest => captureException e ;; captureAll rest
  end.

Definition throwIf (thrown : option JsError) : JsM unit :=
  match thrown with
  | Some e => raise e
  | None => ret tt
  end.

Definition runChecker (r : CheckerRun) : JsM unit :=
  logAll (checkerLogged r) ;;
  captureAll (checkerReported r) ;;
  throwIf (checkerThrown r).

Definition runLogger (r : LoggerRun) : JsM unit :=
  logAll (loggerLogged r) ;;
  throwIf (loggerThrown r).

Definition liftCompletion {A} (c : Completion A) : JsM A :=
  fun w => (c, w).

(** *** The handler *)

(** [payload.recipient?.privateMetadata ?? []]. *)
Definition appMetadataOf (p : Payload) : list MetadataItem :=
  match recipient p with
  | Some r =>
      match privateMetadata r with
      | Some md => md
      | None => []
      end
  | None => []
  end.

(** Truthiness of [payload.version]: absent and the empty string are
    falsy. *)
Definition truthy (v : option string) : bool :=
  match v with
  | Some EmptyString => false
  | Some (String _ _) => true
  | None => false
  end.

(** [Result.map] with a callback that has effects. *)
Definition Result_map {T U E} (r : Result T E) (f : T -> JsM U)
  : JsM (Result U E) :=
  match r with
  | Ok v => u <- f v ;; ret (Ok u)
  | Err e => ret (Err e)
  end.

(** Lines 63-80: extraction, followed by the best-effort logging of the
    configuration summary inside its own try/catch. *)
Definition extractConfig (deps : Collaborators)
    (appMetadata : list MetadataItem) (channelSlug : string)
  : JsM (Result AppConfig ConfigError) :=
  extracted <- liftCompletion
                 (extractAppConfigFromPrivateMetadata deps appMetadata) ;;
  Result_map extracted
    (fun config =>
       catch
         (runLogger (logConfiguration deps config channelSlug))
         (fun e =>
            captureException
              (mkError LogConfigurationMetricError
                 "Failed to log configuration metric" (Some e))) ;;
       ret config).

(** [useCase.calculateTaxes(payload, authData)]: the call either throws
    or hands back a promise. *)
Definition callUseCase (deps : Collaborators) (p : Payload) (a : AuthData)
  : JsM (Settled (Result TaxValue JsError)) :=
  recordUseCaseCall p a ;;
  match calculateTaxes deps p a with
  | ThrowsSync e => raise e
  | Rejects e => ret (Rejected e)
  | Resolves r => ret (Fulfilled r)
  end.

(** What the [try] block returns: a value ([res.status(..).json(..)]
    has already run), or the promise
    [useCase.calculateTaxes(..).then(..)], returned without [await]. *)
Inductive Returned : Type :=
| ReturnedValue
| ReturnedPromise (p : Settled (Result TaxValue JsError)).

(** Lines 100-123: [switch (err.constructor)].  When no case label
    matches, the callback returns [undefined] and nothing is sent. *)
Definition onErr (p : Payload) (err : JsError) : JsM unit :=
  log warn "Error calculating taxes" ;;
  match constructor err with
  | FailedCalculatingTaxesError =>
      respond 500
        (JsonMessage ("Failed to calculate taxes for checkout: "
                      ++ id (sourceObject (taxBase p))))
  | ConfigBrokenError =>
      respond 500
        (JsonMessage
           ("Failed to calculate taxes due to invalid configuration for checkout: "
            ++ id (sourceObject (taxBase p))))
  | ExpectedIncompletePayloadError =>
      respond 400
        (JsonMessage
           ("Taxes can't be calculated due to incomplete payload for checkout: "
            ++ id (sourceObject (taxBase p))))
  | UnhandledError =>
      captureException err ;;
      respond 500
        (JsonMessage
           ("Failed to calculate taxes (Unhandled error) for checkout: "
            ++ id (sourceObject (taxBase p))))
  | _ => ret tt
  end.

(** Lines 93-125: [result.match(ok, err)]. *)
Definition onResult (ctx : Context) (result : Result TaxValue JsError)
  : JsM unit :=
  match result with
  | Ok value => respond 200 (JsonPayload (buildResponse ctx value))
  | Err err => onErr (payload ctx) err
  end.

(** Lines 40-92: the body of the [try] block up to its [return]. *)
Definition tryBlock (deps : Collaborators) (ctx : Context) : JsM Returned :=
  let payload := payload ctx in
  let authData := authData ctx in
  runChecker (checkPayload deps payload) ;;
  log info "Tax base payload for checkout calculate taxes" ;;
  loggerContext_set "channelSlug" (slug (channel (taxBase payload))) ;;
  loggerContext_set "checkoutId" (id (sourceObject (taxBase payload))) ;;
  (if truthy (version payload) then
     match version payload with
     | Some v =>
         Sentry_setTag SALEOR_VERSION v ;;
         loggerContext_set SALEOR_VERSION v
     | None => ret tt
     end
   else ret tt) ;;
  log info "Handler for CHECKOUT_CALCULATE_TAXES webhook called" ;;
  let appMetadata := appMetadataOf payload in
  let channelSlug := slug (channel (taxBase payload)) in
  config <- extractConfig deps appMetadata channelSlug ;;
  if isErr config then
    log warn "Failed to extract app config from metadata" ;;
    respond 400
      (JsonMessage ("App configuration is broken for checkout: "
                    ++ id (sourceObject (taxBase payload)))) ;;
    ret ReturnedValue
  else
    setMetadata appMetadata ;;
    promise <- callUseCase deps payload authData ;;
    ret (ReturnedPromise promise).

(** Lines 127-143: the [catch] block. *)
Definition catchBlock (error : JsError) : JsM Returned :=
  if instanceofAvataxInvalidAddressError error then
    log warn
      "InvalidAppAddressError: App returns status 400 due to broken address configuration" ;;
    respond 400
      (JsonMessage "InvalidAppAddressError: Check address in app configuration") ;;
    ret ReturnedValue
  else
    captureException error ;;
    respond 500 (JsonMessage "Unhandled error") ;;
    ret ReturnedValue.

(** The async handler.  The promise of line 92 is returned, not awaited,
    so it settles after the [try] statement has been left: its [then]
    callback runs outside the [try], and a rejection (or a throw of the
    callback) rejects the handler's own promise.  A [Throw] completion of
    [handler] stands for that rejection. *)
Definition handler (deps : Collaborators) (ctx : Context) : JsM unit :=
  returned <- catch (tryBlock deps ctx) catchBlock ;;
  match returned with
  | ReturnedValue => ret tt
  | ReturnedPromise (Fulfilled result) => onResult ctx result
  | ReturnedPromise (Rejected reason) => raise reason
  end.

(** *** The use case's error taxonomy *)

(** Modelled from the spec: the error type of the [Result] that
    [CalculateTaxesUseCase.calculateTaxes] returns; the use case
    (modules/calculate-taxes/use-case) is not under src/.  Sections 3 and
    4.3: exactly four mutually exclusive error variants. *)
Inductive TaxErrorVariant : Type :=
| IsExpectedIncompletePayloadError
| IsConfigBrokenError
| IsFailedCalculatingTaxesError
| IsUnhandledError.

Record TaxError : Type := {
  variant : TaxErrorVariant;
  taxErrorMessage : string;
  taxErrorCause : option JsError
}.

Definition classOf (v : TaxErrorVariant) : ErrorClass :=
  match v with
  | IsExpectedIncompletePayloadError => ExpectedIncompletePayloadError
  | IsConfigBrokenError => ConfigBrokenError
  | IsFailedCalculatingTaxesError => FailedCalculatingTaxesError
  | IsUnhandledError => UnhandledError
  end.

(** The error object the handler receives for a use-case error. *)
Definition errorObject (e : TaxError) : JsError :=
  mkError (classOf (variant e)) (taxErrorMessage e) (taxErrorCause e).

(** The HTTP status table of section 4.3, following the spec's words. *)
Definition specStatus (v : TaxErrorVariant) : Z :=
  match v with
  | IsExpectedIncompletePayloadError => 400
  | IsConfigBrokenError => 500
  | IsFailedCalculatingTaxesError => 500
  | IsUnhandledError => 500
  end.

(** *** The use case, as the spec describes it *)

(** How the external tax-calculation provider answers: a tax breakdown,
    a known domain failure, or any other exception. *)
Inductive ProviderCall : Type :=
| ProviderReturns (breakdown : TaxValue)
| ProviderDomainFailure (cause : JsError)
| ProviderUnexpectedFailure (cause : JsError).

(** The use case's own collaborators: the completeness check of step 1,
    the configuration lookup of step 2, the provider of step 3, and the
    text of the error messages, which the spec leaves open. *)
Record UseCaseDeps : Type := {
  isCompleteEnough : Payload -> bool;
  resolveConfiguration : Payload -> AuthData -> Result AppConfig ConfigError;
  provider : AppConfig -> Payload -> ProviderCall;
  describe : TaxErrorVariant -> string
}.

(** Modelled from the spec: [CalculateTaxesUseCase.calculateTaxes], whose
    source (modules/calculate-taxes/use-case) is not under src/.
    Section 4.3, steps 1 to 6. *)
Definition specCalculateTaxes (u : UseCaseDeps) (p : Payload) (a : AuthData)
  : Result TaxValue TaxError :=
  if isCompleteEnough u p then
    match resolveConfiguration u p a with
    | Err _ =>
        Err {| variant := IsConfigBrokenError;
               taxErrorMessage := describe u IsConfigBrokenError;
               taxErrorCause := None |}
    | Ok cfg =>
        match provider u cfg p with
        | ProviderReturns breakdown => Ok breakdown
        | ProviderDomainFailure cause =>
            Err {| variant := IsFailedCalculatingTaxesError;
                   taxErrorMessage := describe u IsFailedCalculatingTaxesError;
                   taxErrorCause := Some cause |}
        | ProviderUnexpectedFailure cause =>
            Err {| variant := IsUnhandledError;
                   taxErrorMessage := describe u IsUnhandledError;
                   taxErrorCause := Some cause |}
        end
    end
  else
    Err {| variant := IsExpectedIncompletePayloadError;
           taxErrorMessage := describe u IsExpectedIncompletePayloadError;
           taxErrorCause := None |}.

(** The error of step 5 for a given original cause. *)
Definition unhandledErrorOf (u : UseCaseDeps) (cause : JsError) : TaxError :=
  {| variant := IsUnhandledError;
     taxErrorMessage := describe u IsUnhandledError;
     taxErrorCause := Some cause |}.

(** The promise the handler gets from a use case that behaves as
    [specCalculateTaxes]: it fulfils with the [Result], the error being
    the error object of its variant. *)
Definition useCaseOfSpec (u : UseCaseDeps) (p : Payload) (a : AuthData)
  : UseCaseCall :=
  match specCalculateTaxes u p a with
  | Ok v => Resolves (Ok v)
  | Err e => Resolves (Err (errorObject e))
  end.

(** Replacing one collaborator, the others kept. *)
Definition withCalculateTaxes (deps : Collaborators)
    (f : Payload -> AuthData -> UseCaseCall) : Collaborators :=
  {| checkPayload := checkPayload deps;
     extractAppConfigFromPrivateMetadata :=
       extractAppConfigFromPrivateMetadata deps;
     logConfiguration := logConfiguration deps;
     calculateTaxes := f |}.

Definition withLogConfiguration (deps : Collaborators)
    (f : AppConfig -> string -> LoggerRun) : Collaborators :=
  {| checkPayload := checkPayload deps;
     extractAppConfigFromPrivateMetadata :=
       extractAppConfigFromPrivateMetadata deps;
     logConfiguration := f;
     calculateTaxes := calculateTaxes deps |}.

(** What the catch of lines 68-77 reports when the logging step throws. *)
Definition loggingReport (r : LoggerRun) : list JsError :=
  match loggerThrown r with
  | Some e =>
      [mkError LogConfigurationMetricError
         "Failed to log configuration metric" (Some e)]
  | None => []
  end.

(** The settlement of the promise handed back by a call of the use
    case, when the call does not throw. *)
Definition promiseOf (c : UseCaseCall) : Completion Returned :=
  match c with
  | ThrowsSync e => Throw e
  | Rejects e => Normal (ReturnedPromise (Rejected e))
  | Resolves r => Normal (ReturnedPromise (Fulfilled r))
  end.

(** *** Where an exception can be raised during handling *)

(** The calls of the handler that can throw: the payload check (line 42),
    the config extraction (line 64), the configuration logging (line 67),
    the call of the use case (line 92), and the promise that call
    returns. *)
Inductive ThrowSite : Type :=
| AtCheckPayload
| AtExtractAppConfig
| AtLogConfiguration
| AtCalculateTaxesCall
| AtCalculateTaxesPromise.

(** The exception raised at a site in a run of the handler, if the run
    gets there and the site throws (for the promise: rejects). *)
Definition thrownAt (deps : Collaborators) (ctx : Context) (site : ThrowSite)
  : option JsError :=
  let p := payload ctx in
  match checkerThrown (checkPayload deps p) with
  | Some e =>
      match site with
      | AtCheckPayload => Some e
      | _ => None
      end
  | None =>
      match extractAppConfigFromPrivateMetadata deps (appMetadataOf p) with
      | Throw e =>
          match site with
          | AtExtractAppConfig => Some e
          | _ => None
          end
      | Normal (Err _) => None
      | Normal (Ok config) =>
          match site with
          | AtLogConfiguration =>
              loggerThrown
                (logConfiguration deps config (slug (channel (taxBase p))))
          | AtCalculateTaxesCall =>
              match calculateTaxes deps p (authData ctx) with
              | ThrowsSync e => Some e
              | _ => None
              end
          | AtCalculateTaxesPromise =>
              match calculateTaxes deps p (authData ctx) with
              | Rejects e => Some e
              | _ => None
              end
          | _ => None
          end
      end
  end.

(** The sites whose exception propagates to the [catch] of line 127: the
    logging step has a try/catch of its own (lines 66-77), and the promise
    of line 92 settles after the [try] statement has been left. *)
Definition reachesOuterCatch (site : ThrowSite) : bool :=
  match site with
  | AtCheckPayload | AtExtractAppConfig | AtCalculateTaxesCall => true
  | AtLogConfiguration | AtCalculateTaxesPromise => false
  end.

(** The case labels of the [switch] of line 100. *)
Definition caseLabels : list ErrorClass :=
  [FailedCalculatingTaxesError; ConfigBrokenError;
   ExpectedIncompletePayloadError; UnhandledError].

(** The response of the early return of lines 85-87. *)
Definition brokenConfigResponse (p : Payload) : Response :=
  {| status := 400;
     body := JsonMessage ("App configuration is broken for checkout: "
                          ++ id (sourceObject (taxBase p))) |}.

(** The ways a run can go, by what the collaborators do. *)
Inductive Path (deps : Collaborators) (ctx : Context) : Type :=
| CheckerThrew (e : JsError)
    (Hc : checkerThrown (checkPayload deps (payload ctx)) = Some e)
| ExtractorThrew (e : JsError)
    (Hc : checkerThrown (checkPayload deps (payload ctx)) = None)
    (Hx : extractAppConfigFromPrivateMetadata deps
            (appMetadataOf (payload ctx)) = Throw e)
| ExtractorFailed (error : ConfigError)
    (Hc : checkerThrown (checkPayload deps (payload ctx)) = None)
    (Hx : extractAppConfigFromPrivateMetadata deps
            (appMetadataOf (payload ctx)) = Normal (Err error))
| UseCaseReached (config : AppConfig)
    (Hc : checkerThrown (checkPayload deps (payload ctx)) = None)
    (Hx : extractAppConfigFromPrivateMetadata deps
            (appMetadataOf (payload ctx)) = Normal (Ok config)).

(** The tag of lines 51-54: the platform version, when the payload has a
    truthy one. *)
Definition versionTag (p : Payload) : list (string * string) :=
  if truthy (version p) then
    match version p with
    | Some v => [(SALEOR_VERSION, v)]
    | None => []
    end
  else [].

(** The two fixed responses of the [catch] block. *)
Definition invalidAddressResponse : Response :=
  {| status := 400;
     body := JsonMessage
               "InvalidAppAddressError: Check address in app configuration" |}.

Definition unhandledErrorResponse : Response :=
  {| status := 500; body := JsonMessage "Unhandled error" |}.

End Handler.

Arguments JsonMessage {ResponsePayload} message.
Arguments JsonPayload {ResponsePayload} built.
Arguments ReturnedValue {TaxValue}.
Arguments catchBlock {TaxValue ResponsePayload} error _.
Arguments invalidAddressResponse {ResponsePayload}.
Arguments unhandledErrorResponse {ResponsePayload}.
Arguments brokenConfigResponse {ResponsePayload} p.
Arguments ThrowsSync {TaxValue} e.
Arguments Rejects {TaxValue} e.
Arguments ProviderDomainFailure {TaxValue} cause.
Arguments ProviderUnexpectedFailure {TaxValue} cause.

(** *** A concrete request

    The tax value and the response payload are numbers, [buildResponse]
    doubles its argument, and the extractor accepts any metadata list that
    is not empty. *)

Definition sampleVersion : string := "saleor.version".

Definition samplePayload : Payload :=
  {| taxBase := {| channel := {| slug := "default-channel" |};
                   sourceObject := {| id := "Q2hlY2tvdXQ6MQ" |} |};
     recipient :=
       Some {| privateMetadata :=
                 Some [{| key := "avatax-config"; value := "{}" |}] |};
     version := Some "3.20.1" |}.

Definition sampleBarePayload : Payload :=
  {| taxBase := taxBase samplePayload; recipient := None; version := None |}.

Definition sampleAuthData : AuthData :=
  {| saleorApiUrl := "https://shop.example/graphql/";
     token := "token"; appId := "app-1" |}.

Definition sampleCtx : Context Z Z :=
  {| payload := samplePayload; authData := sampleAuthData;
     buildResponse := fun v => 2 * v |}.

Definition sampleBareCtx : Context Z Z :=
  {| payload := sampleBarePayload; authData := sampleAuthData;
     buildResponse := fun v => 2 * v |}.

Definition quietChecker : CheckerRun :=
  {| checkerLogged := []; checkerReported := []; checkerThrown := None |}.

Definition quietLogger : LoggerRun :=
  {| loggerLogged := []; loggerThrown := None |}.

Definition failingLogger (e : JsError) : LoggerRun :=
  {| loggerLogged := []; loggerThrown := Some e |}.

Definition sampleDeps (logging : LoggerRun) (call : UseCaseCall Z)
  : Collaborators Z unit unit :=
  {| checkPayload := fun _ => quietChecker;
     extractAppConfigFromPrivateMetadata :=
       fun md =>
         match md with
         | [] => Normal (Err tt)
         | _ :: _ => Normal (Ok tt)
         end;
     logConfiguration := fun _ _ => logging;
     calculateTaxes := fun _ _ => call |}.

(** An extractor that accepts every metadata list. *)
Definition lenientDeps (call : UseCaseCall Z) : Collaborators Z unit unit :=
  {| checkPayload := fun _ => quietChecker;
     extractAppConfigFromPrivateMetadata := fun _ => Normal (Ok tt);
     logConfiguration := fun _ _ => quietLogger;
     calculateTaxes := fun _ _ => call |}.

(** A payload checker that reports an error and then throws it. *)
Definition alarmedChecker (e : JsError) : CheckerRun :=
  {| checkerLogged := []; checkerReported := [e]; checkerThrown := Some e |}.

Definition alarmedDeps (e : JsError) : Collaborators Z unit unit :=
  {| checkPayload := fun _ => alarmedChecker e;
     extractAppConfigFromPrivateMetadata := fun _ => Normal (Ok tt);
     logConfiguration := fun _ _ => quietLogger;
     calculateTaxes := fun _ _ => Resolves (Ok 21) |}.

Definition sampleTaxError (v : TaxErrorVariant) : TaxError :=
  {| variant := v; taxErrorMessage := "use case failed";
     taxErrorCause := None |}.

Definition addressError : JsError :=
  mkError AvataxInvalidAddressError "address not resolved" None.

Definition typeError : JsError :=
  mkError (OtherErrorClass "TypeError") "undefined is not a function" None.

(** A use case as the spec describes it, over a provider that throws
    [typeError]. *)
Definition sampleUseCaseDeps : UseCaseDeps Z unit unit :=
  {| isCompleteEnough := fun _ => true;
     resolveConfiguration := fun _ _ => Ok tt;
     provider := fun _ _ => ProviderUnexpectedFailure typeError;
     describe := fun _ => "use case failed" |}.

End Avatax.

(** ** The Typesense webhooks-status endpoint *)

Module Typesense.

Section Handler.

(** [OwnWebhookFragment] of the generated GraphQL types, with its [name]
    field, and [isWebhookUpdateNeeded] of lib/typesense: neither is under
    src/. *)
Variable OwnWebhookFragment : Type.
Variable name : OwnWebhookFragment -> string.
Variable isWebhookUpdateNeeded : list string -> bool.

Record AuthData : Type := {
  saleorApiUrl : string;
  token : string;
  appId : string
}.

(** The stored configuration, as far as the handler reads it. *)
Record TypesenseConfig : Type := {
  host : string;
  apiKey : string;
  protocol : string;
  port : Z;
  connectionTimeoutSeconds : Z
}.

Record FieldsMapping : Type := { enabledTypesenseFields : list string }.

Record AppConfig : Type := {
  appConfig : option TypesenseConfig;
  fieldsMapping : FieldsMapping
}.

(** The result of the [FetchOwnWebhooks] query: [r.data?.app?.webhooks]. *)
Record App : Type := { webhooks : option (list OwnWebhookFragment) }.
Record QueryData : Type := { app : option App }.
Record OperationResult : Type := { data : option QueryData }.

(** The injected services, each given by what its one call settles to.
    [query] is [client.query(FetchOwnWebhooksDocument, {id}).toPromise()].
    [configManagerGet] is what
    [(await new AppConfigMetadataManager(settingsManager).get(url)).getConfig()]
    settles to; the manager class is not under src/, so the whole lookup
    is a field of the settings manager it wraps. *)
Record Client : Type := { query : string -> Settled OperationResult }.
Record WebhookActivityToggler : Type := { disableOwnWebhooks : Settled unit }.
Record SearchProvider : Type := { ping : Settled unit }.
Record SettingsManager : Type := { configManagerGet : string -> Settled AppConfig }.

Record FactoryProps : Type := {
  settingsManagerFactory : Client -> string -> SettingsManager;
  webhookActivityTogglerFactory : string -> Client -> WebhookActivityToggler;
  typesenseSearchProviderFactory :
    string -> string -> string -> Z -> Z -> list string -> SearchProvider;
  graphqlClientFactory : string -> string -> Client
}.

(** [res.status(200).json({webhooks, isUpdateNeeded})] or
    [res.status(500).end()]. *)
Inductive Body : Type :=
| JsonStatus (webhooks : list OwnWebhookFragment) (isUpdateNeeded : bool)
| EmptyBody.

Record Response : Type := { status : Z; body : Body }.

Record World : Type := {
  debugLog : list string;
  pingCalls : nat;
  disableOwnWebhooksCalls : nat;
  responses : list Response
}.

Local Abbreviation JsM := (Js World).

Definition debug (msg : string) : JsM unit :=
  fun w =>
    (Normal tt,
     {| debugLog := (debugLog w ++ [msg])%list; pingCalls := pingCalls w;
        disableOwnWebhooksCalls := disableOwnWebhooksCalls w;
        responses := responses w |}).

Definition respond (s : Z) (b : Body) : JsM unit :=
  fun w =>
    (Normal tt,
     {| debugLog := debugLog w; pingCalls := pingCalls w;
        disableOwnWebhooksCalls := disableOwnWebhooksCalls w;
        responses := (responses w ++ [{| status := s; body := b |}])%list |}).

(** [await p]: the value of a fulfilled promise, a [throw] of the reason
    of a rejected one. *)
Definition await {A} (p : Settled A) : JsM A :=
  match p with
  | Fulfilled v => ret v
  | Rejected e => raise e
  end.

Definition recordDisableOwnWebhooks : JsM unit :=
  fun w =>
    (Normal tt,
     {| debugLog := debugLog w; pingCalls := pingCalls w;
        disableOwnWebhooksCalls := S (disableOwnWebhooksCalls w);
        responses := responses w |}).

Definition recordPing : JsM unit :=
  fun w =>
    (Normal tt,
     {| debugLog := debugLog w; pingCalls := S (pingCalls w);
        disableOwnWebhooksCalls := disableOwnWebhooksCalls w;
        responses := responses w |}).

(** [await webhooksToggler.disableOwnWebhooks()]. *)
Definition callDisableOwnWebhooks (t : WebhookActivityToggler) : JsM unit :=
  recordDisableOwnWebhooks ;;
  await (disableOwnWebhooks t).

(** [await typesenseService.ping()]. *)
Definition callPing (s : SearchProvider) : JsM unit :=
  recordPing ;;
  await (ping s).

(** [r.data?.app?.webhooks]. *)
Definition webhooksOf (r : OperationResult) : option (list OwnWebhookFragment) :=
  match data r with
  | Some d =>
      match app d with
      | Some a => webhooks a
      | None => None
      end
  | None => None
  end.

(** Lines 75-103: disable the app's own webhooks when the settings are
    incomplete or the Typesense ping fails. *)
Definition checkSettings (props : FactoryProps) (config : AppConfig)
    (webhooksToggler : WebhookActivityToggler) : JsM unit :=
  match appConfig config with
  | None =>
      debug "Settings not set, will disable webhooks" ;;
      callDisableOwnWebhooks webhooksToggler
  | Some c =>
      let typesenseService :=
        typesenseSearchProviderFactory props (host c) (apiKey c) (protocol c)
          (port c) (connectionTimeoutSeconds c)
          (enabledTypesenseFields (fieldsMapping config)) in
      catch
        (debug "Settings set, will ping Typesense" ;;
         callPing typesenseService)
        (fun _ =>
           debug "Typesense ping failed, will disable webhooks" ;;
           callDisableOwnWebhooks webhooksToggler)
  end.

(** Lines 105-127: fetch the app's webhooks and answer. *)
Definition fetchAndRespond (client : Client) (authData : AuthData) : JsM unit :=
  catch
    (debug "Settings and Typsense are correct, will fetch Webhooks from Saleor" ;;
     r <- await (query client (appId authData)) ;;
     match webhooksOf r with
     | None => respond 500 EmptyBody
     | Some webhooks =>
         let isUpdateNeeded := isWebhookUpdateNeeded (map name webhooks) in
         respond 200 (JsonStatus webhooks isUpdateNeeded)
     end)
    (fun _ => respond 500 EmptyBody).

(** [webhooksStatusHandlerFactory(props)], applied to a request.  A
    [Throw] completion stands for a rejection of the handler's promise. *)
Definition webhooksStatusHandlerFactory (props : FactoryProps)
    (authData : AuthData) : JsM unit :=
  let client :=
    graphqlClientFactory props (saleorApiUrl authData) (token authData) in
  let webhooksToggler :=
    webhookActivityTogglerFactory props (appId authData) client in
  let settingsManager :=
    settingsManagerFactory props client (appId authData) in
  config <- await (configManagerGet settingsManager (saleorApiUrl authData)) ;;
  debug "fetched settings" ;;
  checkSettings props config webhooksToggler ;;
  fetchAndRespond client authData.

(** The services the handler builds for a request. *)
Definition togglerOf (props : FactoryProps) (authData : AuthData)
  : WebhookActivityToggler :=
  webhookActivityTogglerFactory props (appId authData)
    (graphqlClientFactory props (saleorApiUrl authData) (token authData)).

Definition storedConfig (props : FactoryProps) (authData : AuthData)
  : Settled AppConfig :=
  configManagerGet
    (settingsManagerFactory props
       (graphqlClientFactory props (saleorApiUrl authData) (token authData))
       (appId authData))
    (saleorApiUrl authData).

Definition searchProviderOf (props : FactoryProps) (config : AppConfig)
    (c : TypesenseConfig) : SearchProvider :=
  typesenseSearchProviderFactory props (host c) (apiKey c) (protocol c)
    (port c) (connectionTimeoutSeconds c)
    (enabledTypesenseFields (fieldsMapping config)).

Definition clientOf (props : FactoryProps) (authData : AuthData) : Client :=
  graphqlClientFactory props (saleorApiUrl authData) (token authData).

(** Whether the settings check of lines 75-103 asks for the webhooks to
    be disabled: no [appConfig], or a ping that throws. *)
Definition settingsMissingOrPingFails (props : FactoryProps)
    (config : AppConfig) : bool :=
  match appConfig config with
  | None => true
  | Some c =>
      match ping (searchProviderOf props config c) with
      | Rejected _ => true
      | Fulfilled _ => false
      end
  end.

Definition emptyWorld : World :=
  {| debugLog := []; pingCalls := 0; disableOwnWebhooksCalls := 0;
     responses := [] |}.

End Handler.

Arguments EmptyBody {OwnWebhookFragment}.
Arguments emptyWorld {OwnWebhookFragment}.

(** *** A concrete installation

    Webhooks are represented by their names.  The stored configuration
    points at a Typesense server whose ping is given. *)

Definition sampleAuthData : AuthData :=
  {| saleorApiUrl := "https://shop.example/graphql/";
     token := "token"; appId := "app-1" |}.

Definition sampleTypesenseConfig : TypesenseConfig :=
  {| host := "typesense.example"; apiKey := "xyz"; protocol := "https";
     port := 8108; connectionTimeoutSeconds := 5 |}.

Definition sampleConfig (c : option TypesenseConfig) : AppConfig :=
  {| appConfig := c;
     fieldsMapping := {| enabledTypesenseFields := ["name"; "description"] |} |}.

Definition sampleProps (c : option TypesenseConfig) (pinged : Settled unit)
  : FactoryProps string :=
  {| settingsManagerFactory :=
       fun _ _ =>
         {| configManagerGet := fun _ => Fulfilled (sampleConfig c) |};
     webhookActivityTogglerFactory :=
       fun _ _ => {| disableOwnWebhooks := Fulfilled tt |};
     typesenseSearchProviderFactory :=
       fun _ _ _ _ _ _ => {| ping := pinged |};
     graphqlClientFactory :=
       fun _ _ =>
         {| query :=
              fun _ =>
                Fulfilled
                  {| data :=
                       Some {| app :=
                                 Some {| webhooks :=
                                           Some ["PRODUCT_CREATED"] |} |} |} |} |}.

(** An installation whose services can fail: reading the stored
    configuration, disabling the webhooks, and the webhooks query settle as
    given. *)
Definition flakyProps (stored : Settled (AppConfig))
    (disabled : Settled unit) (queried : Settled (OperationResult string))
  : FactoryProps string :=
  {| settingsManagerFactory :=
       fun _ _ => {| configManagerGet := fun _ => stored |};
     webhookActivityTogglerFactory :=
       fun _ _ => {| disableOwnWebhooks := disabled |};
     typesenseSearchProviderFactory :=
       fun _ _ _ _ _ _ => {| ping := Fulfilled tt |};
     graphqlClientFactory := fun _ _ => {| query := fun _ => queried |} |}.

Definition connectionRefused : JsError :=
  mkError (OtherErrorClass "Error") "connect ECONNREFUSED" None.

End Typesense.

(** ** The Typesense product import component *)

Module ImportProducts.

Section Component.

(** A product as [useQueryAllProducts] returns it (the hook is not under
    src/): the component reads only the optional [variants] array. *)
Variable Product : Type.
Variable Variant : Type.
Variable variants : Product -> option (list Variant).

Definition BATCH_SIZE : nat := 100.

(** [Array.prototype.slice(start, end)] for indices that are natural
    numbers: an end beyond the array is clipped, an end before the start
    gives the empty array. *)
Definition slice {A} (start stop : nat) (l : list A) : list A :=
  firstn (stop - start) (skipn start l).

(** [p.variants?.length ?? 0]. *)
Definition variantsIn (p : Product) : nat :=
  match variants p with
  | Some vs => length vs
  | None => 0%nat
  end.

(** Lines 154-155. *)
Definition countVariants (products : list Product) (index : nat) : nat :=
  fold_left (fun acc p => (acc + variantsIn p)%nat)
    (slice 0 index products) 0%nat.

(** The sizes a batch can have: at least one product, at most
    [BATCH_SIZE]. *)
Definition batchSized (batch : list Product) : Prop :=
  (0 < length batch <= BATCH_SIZE)%nat.

(** The options handed to [new TypesenseSearchProvider]. *)
Record ProviderOptions : Type := {
  host : string;
  apiKey : string;
  protocol : string;
  port : Z;
  connectionTimeoutSeconds : Z;
  enabledKeys : list string
}.

(** Truthiness of a string. *)
Definition nonEmpty (s : string) : bool :=
  match s with
  | EmptyString => false
  | String _ _ => true
  end.

(** Lines 20-39: the memoised search provider; [None] stands for [null].
    [typesenseConfiguration] is the data of the configuration query, absent
    until the query has answered. *)
Definition searchProvider (typesenseConfiguration : option Typesense.AppConfig)
  : option ProviderOptions :=
  match typesenseConfiguration with
  | Some configuration =>
      match Typesense.appConfig configuration with
      | Some c =>
          if negb (nonEmpty (Typesense.host c))
             || negb (nonEmpty (Typesense.apiKey c))
          then None
          else
            Some {| host := Typesense.host c;
                    apiKey := Typesense.apiKey c;
                    protocol := Typesense.protocol c;
                    port := Typesense.port c;
                    connectionTimeoutSeconds :=
                      Typesense.connectionTimeoutSeconds c;
                    enabledKeys :=
                      Typesense.enabledTypesenseFields
                        (Typesense.fieldsMapping configuration) |}
      | None => None
      end
  | None => None
  end.

(** The component's state (lines 11-15) and the batches handed to
    [searchProvider.updatedBatchProducts], in order. *)
Record State : Type := {
  typesenseConfigured : option bool;
  started : bool;
  currentProductIndex : nat;
  isTypesenseImporting : bool;
  allImported : bool
}.

Record World : Type := {
  state : State;
  uploaded : list (list Product)
}.

Local Abbreviation JsC := (Js World).

Definition setState (f : State -> State) : JsC unit :=
  fun w => (Normal tt, {| state := f (state w); uploaded := uploaded w |}).

Definition setTypesenseConfigured (b : option bool) : JsC unit :=
  setState (fun s =>
    {| typesenseConfigured := b; started := started s;
       currentProductIndex := currentProductIndex s;
       isTypesenseImporting := isTypesenseImporting s;
       allImported := allImported s |}).

Definition setStarted (b : bool) : JsC unit :=
  setState (fun s =>
    {| typesenseConfigured := typesenseConfigured s; started := b;
       currentProductIndex := currentProductIndex s;
       isTypesenseImporting := isTypesenseImporting s;
       allImported := allImported s |}).

Definition setCurrentProductIndex (f : nat -> nat) : JsC unit :=
  setState (fun s =>
    {| typesenseConfigured := typesenseConfigured s; started := started s;
       currentProductIndex := f (currentProductIndex s);
       isTypesenseImporting := isTypesenseImporting s;
       allImported := allImported s |}).

Definition setIsTypesenseImporting (b : bool) : JsC unit :=
  setState (fun s =>
    {| typesenseConfigured := typesenseConfigured s; started := started s;
       currentProductIndex := currentProductIndex s;
       isTypesenseImporting := b;
       allImported := allImported s |}).

Definition setAllImported (b : bool) : JsC unit :=
  setState (fun s =>
    {| typesenseConfigured := typesenseConfigured s; started := started s;
       currentProductIndex := currentProductIndex s;
       isTypesenseImporting := isTypesenseImporting s;
       allImported := b |}).

Definition recordUpload (batch : list Product) : JsC unit :=
  fun w =>
    (Normal tt, {| state := state w; uploaded := (uploaded w ++ [batch])%list |}).

Definition await {A} (p : Settled A) : JsC A :=
  match p with
  | Fulfilled v => ret v
  | Rejected e => raise e
  end.

(** Lines 41-43. *)
Definition importProducts : JsC unit := setStarted true.

(** Lines 45-52: the ping effect. *)
Definition pingEffect (provider : option ProviderOptions)
    (ping : ProviderOptions -> Settled unit) : JsC unit :=
  match provider with
  | Some options =>
      match ping options with
      | Fulfilled _ => setTypesenseConfigured (Some true)
      | Rejected _ => setTypesenseConfigured (Some false)
      end
  | None => ret tt
  end.

(** Lines 55-70: [importBatch], with the values its closure captured from
    the render ([searchProvider], [products], [currentProductIndex]).
    [updatedBatchProducts] gives what the upload of a batch settles to.  A
    [Throw] completion stands for a rejection of the promise
    [importBatch] returns. *)
Definition importBatch (provider : option ProviderOptions)
    (updatedBatchProducts : list Product -> Settled unit)
    (products : list Product) (currentProductIndex : nat) : JsC unit :=
  if match provider with Some _ => false | None => true end
     || (length products <=? currentProductIndex)%nat
  then setIsTypesenseImporting false
  else
    let productsBatch :=
      slice currentProductIndex (currentProductIndex + BATCH_SIZE) products in
    recordUpload productsBatch ;;
    await (updatedBatchProducts productsBatch) ;;
    setCurrentProductIndex (fun prevIndex => (prevIndex + BATCH_SIZE)%nat) ;;
    setIsTypesenseImporting false ;;
    if (length products <=? currentProductIndex + BATCH_SIZE)%nat
    then setAllImported true
    else ret tt.

(** Lines 54-76: the import effect of one render, run against the state
    of that render. *)
Definition importEffect (provider : option ProviderOptions)
    (updatedBatchProducts : list Product -> Settled unit)
    (products : list Product) : JsC unit :=
  fun w =>
    if started (state w) && negb (isTypesenseImporting (state w)) then
      (setIsTypesenseImporting true ;;
       importBatch provider updatedBatchProducts products
         (currentProductIndex (state w))) w
    else (Normal tt, w).

(** [n] successive runs of the import effect over an unchanging product
    list, each against the state the run before left behind: React runs
    the effect again after every render in which one of its dependencies
    changed. *)
Fixpoint renders (n : nat) (provider : option ProviderOptions)
    (updatedBatchProducts : list Product -> Settled unit)
    (products : list Product) (w : World) : World :=
  match n with
  | O => w
  | S k =>
      renders k provider updatedBatchProducts products
        (exec (importEffect provider updatedBatchProducts products) w)
  end.

(** Lines 78-86 and 138-141: what the progress display shows. *)
Definition variantCount (products : list Product) (w : World) : nat :=
  countVariants products (currentProductIndex (state w)).

Definition totalVariantCount (products : list Product) : nat :=
  countVariants products (length products).

(** What holds between batches of an import that has not failed. *)
Definition between_batches (products : list Product) (w : World) : Prop :=
  started (state w) = true /\
  isTypesenseImporting (state w) = false /\
  concat (uploaded w) = firstn (currentProductIndex (state w)) products /\
  currentProductIndex (state w) = (BATCH_SIZE * length (uploaded w))%nat /\
  Forall batchSized (uploaded w) /\
  allImported (state w) =
    negb (length products =? 0)%nat
    && (length products <=? currentProductIndex (state w))%nat.

(** The component after "Start importing" was clicked. *)
Definition startedWorld : World :=
  {| state := {| typesenseConfigured := Some true; started := true;
                 currentProductIndex := 0; isTypesenseImporting := false;
                 allImported := false |};
     uploaded := [] |}.

End Component.

Arguments startedWorld {Product}.

(** *** A concrete catalogue: products are numbers, product [n] has [n]
    variants, and product 0 has no [variants] field. *)

Definition sampleVariants (n : nat) : option (list unit) :=
  match n with
  | O => None
  | S _ => Some (repeat tt n)
  end.

Definition sampleCatalogue : list nat := seq 0 250.

Definition sampleOptions : ProviderOptions :=
  {| host := "typesense.example"; apiKey := "xyz"; protocol := "https";
     port := 8108; connectionTimeoutSeconds := 5; enabledKeys := ["name"] |}.

Definition alwaysUploads : list nat -> Settled unit := fun _ => Fulfilled tt.

Definition neverUploads : list nat -> Settled unit :=
  fun _ => Rejected (mkError (OtherErrorClass "Error") "upload failed" None).

End ImportProducts.

(** ** Proof automation *)

(** Unfolds the monad's operations and nothing else. *)
Ltac js_unfold :=
  cbv beta iota zeta
      delta [bind ret raise catch Monad_Js MonadExc_Js
             Js_bind Js_ret Js_throw Js_try].

(** ** Facts about the AvaTax handler *)

Module AvataxFacts.

Import Avatax.

Section Facts.

Variables TaxValue AppConfig ConfigError ResponsePayload : Type.
Variable SALEOR_VERSION : string.

Local Abbreviation World := (Avatax.World ResponsePayload).
Local Abbreviation Deps := (Collaborators TaxValue AppConfig ConfigError).
Local Abbreviation Ctx := (Context TaxValue ResponsePayload).

Implicit Types (w : World) (deps : Deps) (ctx : Ctx) (e : JsError).

Lemma append_nil_r_string (s : string) : (s ++ "")%string = s.
Proof. induction s as [| c s IH]; cbn; [| rewrite IH]; reflexivity. Qed.

Lemma World_eta w :
  {| logs := logs w; loggerContext := loggerContext w;
     sentryTags := sentryTags w; captured := captured w;
     metadataCache := metadataCache w; useCaseCalls := useCaseCalls w;
     responses := responses w |} = w.
Proof. destruct w; reflexivity. Qed.

Lemma logAll_run (entries : list LogEntry) w :
  logAll entries w = (Normal tt, addLogs entries w).
Proof.
  revert w; induction entries as [| entry rest IH]; intro w.
  - unfold addLogs; cbn. rewrite app_nil_r, World_eta. reflexivity.
  - cbn [logAll]. js_unfold. unfold log. rewrite IH.
    unfold addLogs; cbn. rewrite <- app_assoc. destruct entry; reflexivity.
Qed.

Lemma captureAll_run (errors : list JsError) w :
  captureAll errors w = (Normal tt, addCaptured errors w).
Proof.
  revert w; induction errors as [| err rest IH]; intro w.
  - unfold addCaptured; cbn. rewrite app_nil_r, World_eta. reflexivity.
  - cbn [captureAll]. js_unfold. unfold captureException. rewrite IH.
    unfold addCaptured; cbn. rewrite <- app_assoc. reflexivity.
Qed.

Lemma runChecker_run (r : CheckerRun) w :
  runChecker r w =
  (match checkerThrown r with Some e => Throw e | None => Normal tt end,
   addCaptured (checkerReported r) (addLogs (checkerLogged r) w)).
Proof.
  unfold runChecker, throwIf. js_unfold.
  rewrite logAll_run, captureAll_run.
  destruct (checkerThrown r); reflexivity.
Qed.

Lemma runLogger_run (r : LoggerRun) w :
  runLogger r w =
  (match loggerThrown r with Some e => Throw e | None => Normal tt end,
   addLogs (loggerLogged r) w).
Proof.
  unfold runLogger, throwIf. js_unfold.
  rewrite logAll_run.
  destruct (loggerThrown r); reflexivity.
Qed.

(** Unfolds the effect primitives of the handler. *)
Ltac prim_unfold :=
  cbv beta iota zeta
      delta [log loggerContext_set Sentry_setTag captureException
             setMetadata respond recordUseCaseCall liftCompletion
             Result_map].

Ltac run := js_unfold; prim_unfold.

(** The four ways through the [try] block. *)

Lemma tryBlock_checker_throws deps ctx w e :
  checkerThrown (checkPayload deps (payload ctx)) = Some e ->
  exists w1,
    tryBlock SALEOR_VERSION deps ctx w = (Throw e, w1) /\
    responses w1 = responses w /\
    captured w1 =
      (captured w ++ checkerReported (checkPayload deps (payload ctx)))%list /\
    metadataCache w1 = metadataCache w /\
    useCaseCalls w1 = useCaseCalls w.
Proof.
  intros Hc. unfold tryBlock. js_unfold.
  rewrite runChecker_run, Hc.
  eexists; split; [reflexivity |]. cbn. auto.
Qed.

Lemma tryBlock_extract_throws deps ctx w e :
  checkerThrown (checkPayload deps (payload ctx)) = None ->
  extractAppConfigFromPrivateMetadata deps (appMetadataOf (payload ctx))
    = Throw e ->
  exists w1,
    tryBlock SALEOR_VERSION deps ctx w = (Throw e, w1) /\
    responses w1 = responses w /\
    captured w1 =
      (captured w ++ checkerReported (checkPayload deps (payload ctx)))%list /\
    metadataCache w1 = metadataCache w /\
    useCaseCalls w1 = useCaseCalls w.
Proof.
  intros Hc Hx. unfold tryBlock, extractConfig. js_unfold.
  rewrite runChecker_run, Hc. run. rewrite Hx.
  destruct (version (payload ctx)) as [[| c v] |]; cbn [truthy]; run;
    (eexists; split; [reflexivity |]; cbn; auto).
Qed.

Lemma tryBlock_extract_err deps ctx w (error : ConfigError) :
  checkerThrown (checkPayload deps (payload ctx)) = None ->
  extractAppConfigFromPrivateMetadata deps (appMetadataOf (payload ctx))
    = Normal (Err error) ->
  exists w1,
    tryBlock SALEOR_VERSION deps ctx w = (Normal ReturnedValue, w1) /\
    responses w1 =
      (responses w ++
       [{| status := 400;
           body := JsonMessage
                     ("App configuration is broken for checkout: "
                      ++ id (sourceObject (taxBase (payload ctx)))) |}])%list /\
    captured w1 =
      (captured w ++ checkerReported (checkPayload deps (payload ctx)))%list /\
    metadataCache w1 = metadataCache w /\
    useCaseCalls w1 = useCaseCalls w.
Proof.
  intros Hc Hx. unfold tryBlock, extractConfig. js_unfold.
  rewrite runChecker_run, Hc. run. rewrite Hx.
  destruct (version (payload ctx)) as [[| c v] |]; cbn [truthy isErr]; run;
    (eexists; split; [reflexivity |]; cbn; auto).
Qed.

Lemma tryBlock_extract_ok deps ctx w (config : AppConfig) :
  checkerThrown (checkPayload deps (payload ctx)) = None ->
  extractAppConfigFromPrivateMetadata deps (appMetadataOf (payload ctx))
    = Normal (Ok config) ->
  exists w1,
    tryBlock SALEOR_VERSION deps ctx w =
      (promiseOf (calculateTaxes deps (payload ctx) (authData ctx)), w1) /\
    responses w1 = responses w /\
    captured w1 =
      (captured w ++ checkerReported (checkPayload deps (payload ctx))
       ++ loggingReport
            (logConfiguration deps config
               (slug (channel (taxBase (payload ctx))))))%list /\
    metadataCache w1 = Some (appMetadataOf (payload ctx)) /\
    useCaseCalls w1 =
      (useCaseCalls w ++ [(payload ctx, authData ctx)])%list.
Proof.
  intros Hc Hx. unfold tryBlock, extractConfig, callUseCase, loggingReport.
  js_unfold.
  rewrite runChecker_run, Hc. run. rewrite Hx.
  destruct (version (payload ctx)) as [[| c v] |]; cbn [truthy]; run;
    rewrite runLogger_run;
    destruct (loggerThrown _); run; cbn [isErr]; run;
    destruct (calculateTaxes deps (payload ctx) (authData ctx)); cbn [promiseOf];
    (eexists; split; [reflexivity |]; cbn;
     rewrite ?app_nil_r, <- ?app_assoc; auto).
Qed.

(** The handler, by the outcome of its [try] block. *)
Lemma handler_run deps ctx w :
  handler SALEOR_VERSION deps ctx w =
  match tryBlock SALEOR_VERSION deps ctx w with
  | (Normal ReturnedValue, w1) => (Normal tt, w1)
  | (Normal (ReturnedPromise (Fulfilled result)), w1) => onResult ctx result w1
  | (Normal (ReturnedPromise (Rejected reason)), w1) => (Throw reason, w1)
  | (Throw error, w1) =>
      if instanceofAvataxInvalidAddressError error then
        (Normal tt,
         addResponse invalidAddressResponse
           (addLogs
              [{| level := warn;
                  text := "InvalidAppAddressError: App returns status 400 due to broken address configuration" |}]
              w1))
      else
        (Normal tt,
         addResponse unhandledErrorResponse (addCaptured [error] w1))
  end.
Proof.
  unfold handler. js_unfold.
  destruct (tryBlock SALEOR_VERSION deps ctx w) as [[[| [result | reason]] | error] w1];
    try reflexivity.
  unfold catchBlock.
  destruct (instanceofAvataxInvalidAddressError error); reflexivity.
Qed.

(** The error callback, variant by variant. *)
Lemma onErr_run (p : Payload) (err : TaxError) w :
  exists message,
    onErr p (errorObject err) w =
      (Normal tt,
       addResponse {| status := specStatus (variant err);
                      body := JsonMessage message |}
         (match variant err with
          | IsUnhandledError =>
              addCaptured [errorObject err]
                (addLogs [{| level := warn; text := "Error calculating taxes" |}] w)
          | _ => addLogs [{| level := warn; text := "Error calculating taxes" |}] w
          end)) /\
    mentions message (id (sourceObject (taxBase p))).
Proof.
  unfold onErr, errorObject.
  destruct err as [[] msg cause]; cbn [variant classOf constructor specStatus];
    run; (eexists; split; [reflexivity |]);
    (eexists; exists ""; rewrite append_nil_r_string; reflexivity).
Qed.

(** *** The outcome of the use case, mapped to a response *)

(** C1: for every error variant the use case returns, the handler answers
    with the status of the table of section 4.3 (400 for
    ExpectedIncompletePayloadError, 500 for the other three) and a JSON
    body whose [message] mentions the checkout id. *)
Theorem error_variant_status_and_message deps ctx w
    (config : AppConfig) (err : TaxError) :
  checkerThrown (checkPayload deps (payload ctx)) = None ->
  extractAppConfigFromPrivateMetadata deps (appMetadataOf (payload ctx))
    = Normal (Ok config) ->
  calculateTaxes deps (payload ctx) (authData ctx)
    = Resolves (Err (errorObject err)) ->
  exists message,
    completion (handler SALEOR_VERSION deps ctx) w = Normal tt /\
    responses (exec (handler SALEOR_VERSION deps ctx) w) =
      (responses w ++
       [{| status := specStatus (variant err);
           body := JsonMessage message |}])%list /\
    mentions message (id (sourceObject (taxBase (payload ctx)))).
Proof.
  intros Hc Hx Hu.
  destruct (tryBlock_extract_ok deps ctx w Hc Hx)
    as (w1 & Ht & Hr & _).
  destruct (onErr_run (payload ctx) err w1) as (message & Hrun & Hm).
  exists message.
  unfold completion, exec. rewrite handler_run, Ht, Hu.
  cbn [promiseOf onResult]. rewrite Hrun. cbn [fst snd].
  repeat split; trivial.
  destruct (variant err); cbn; rewrite Hr; reflexivity.
Qed.

(** C2: the error callback sends exactly one response for every error
    variant of the use case's Result: the constructor of the error object
    is one of the four case labels, so the switch never runs off its end. *)
Theorem every_error_variant_is_answered_once ctx (err : TaxError) w :
  In (constructor (errorObject err)) caseLabels /\
  exists r,
    completion (onResult ctx (Err (errorObject err))) w = Normal tt /\
    responses (exec (onResult ctx (Err (errorObject err))) w) =
      (responses w ++ [r])%list.
Proof.
  split.
  - destruct err as [[] msg cause]; cbn; auto.
  - destruct (onErr_run (payload ctx) err w) as (message & Hrun & _).
    exists {| status := specStatus (variant err);
              body := JsonMessage message |}.
    unfold completion, exec. cbn [onResult]. rewrite Hrun.
    cbn [fst snd]. split; [reflexivity |].
    destruct (variant err); reflexivity.
Qed.

(** The switch does have a way out without a response: an error object
    whose constructor is none of the four labels is answered by nothing. *)
Lemma unlabelled_error_is_not_answered (p : Payload) (err : JsError) w :
  ~ In (constructor err) caseLabels ->
  completion (onErr p err) w = Normal tt /\
  responses (exec (onErr p err) w) = responses w.
Proof.
  intros Hnot. unfold completion, exec, onErr.
  destruct err as [[] msg cause]; cbn [constructor] in *;
    try (exfalso; apply Hnot; cbn; tauto);
    run; split; reflexivity.
Qed.

(** C6: when the use case returns a success value, the handler answers
    200 with the body [ctx.buildResponse(value)]. *)
Theorem success_is_answered_200 deps ctx w
    (config : AppConfig) (value : TaxValue) :
  checkerThrown (checkPayload deps (payload ctx)) = None ->
  extractAppConfigFromPrivateMetadata deps (appMetadataOf (payload ctx))
    = Normal (Ok config) ->
  calculateTaxes deps (payload ctx) (authData ctx) = Resolves (Ok value) ->
  completion (handler SALEOR_VERSION deps ctx) w = Normal tt /\
  responses (exec (handler SALEOR_VERSION deps ctx) w) =
    (responses w ++
     [{| status := 200;
         body := JsonPayload (buildResponse ctx value) |}])%list.
Proof.
  intros Hc Hx Hu.
  destruct (tryBlock_extract_ok deps ctx w Hc Hx)
    as (w1 & Ht & Hr & _).
  unfold completion, exec. rewrite handler_run, Ht, Hu.
  cbn [promiseOf onResult]. run. cbn. rewrite Hr. split; reflexivity.
Qed.

(** C5: when config extraction returns an error, the handler answers 400
    with a message that mentions the checkout id, does not invoke the use
    case, and leaves the metadata cache as it was. *)
Theorem broken_config_is_answered_400 deps ctx w (error : ConfigError) :
  checkerThrown (checkPayload deps (payload ctx)) = None ->
  extractAppConfigFromPrivateMetadata deps (appMetadataOf (payload ctx))
    = Normal (Err error) ->
  completion (handler SALEOR_VERSION deps ctx) w = Normal tt /\
  responses (exec (handler SALEOR_VERSION deps ctx) w) =
    (responses w ++
     [{| status := 400;
         body := JsonMessage
                   ("App configuration is broken for checkout: "
                    ++ id (sourceObject (taxBase (payload ctx)))) |}])%list /\
  mentions
    ("App configuration is broken for checkout: "
     ++ id (sourceObject (taxBase (payload ctx))))
    (id (sourceObject (taxBase (payload ctx)))) /\
  useCaseCalls (exec (handler SALEOR_VERSION deps ctx) w) = useCaseCalls w /\
  metadataCache (exec (handler SALEOR_VERSION deps ctx) w) = metadataCache w.
Proof.
  intros Hc Hx.
  destruct (tryBlock_extract_err deps ctx w Hc Hx)
    as (w1 & Ht & Hr & _ & Hm & Hu).
  unfold completion, exec. rewrite handler_run, Ht. cbn [fst snd].
  repeat split; trivial.
  eexists; exists ""; rewrite append_nil_r_string; reflexivity.
Qed.

(** What [result.match] sends does not depend on the world it starts
    from, and is never the broken-configuration response of line 85. *)
Lemma onResult_frame ctx (result : Result TaxValue JsError) :
  exists rs,
    Forall (fun r => r <> brokenConfigResponse (payload ctx)) rs /\
    forall w,
      completion (onResult ctx result) w = Normal tt /\
      responses (exec (onResult ctx result) w) = (responses w ++ rs)%list.
Proof.
  unfold completion, exec.
  destruct result as [value | [[] msg cause]];
    cbn [onResult]; unfold onErr; cbn [constructor];
    run; cbn [fst snd addResponse addLogs addCaptured responses].
  all: try (exists []; split; [constructor |];
            intro w; rewrite app_nil_r; split; reflexivity).
  all: eexists [_]; split; [| intro w; split; reflexivity].
  all: constructor; [unfold brokenConfigResponse; cbn; discriminate
                    | constructor].
Qed.

(** An exception of a site inside the outer [try] leaves the [try] block,
    and no response has been sent by then. *)
Lemma thrown_in_try_block deps ctx w (site : ThrowSite) e :
  reachesOuterCatch site = true ->
  thrownAt deps ctx site = Some e ->
  exists w1,
    tryBlock SALEOR_VERSION deps ctx w = (Throw e, w1) /\
    responses w1 = responses w.
Proof.
  unfold thrownAt. intros Hsite Hthrown.
  destruct (checkerThrown (checkPayload deps (payload ctx))) as [e0 |] eqn:Hc.
  - destruct site; try discriminate; inversion Hthrown; subst.
    destruct (tryBlock_checker_throws deps ctx w Hc) as (w1 & Ht & Hr & _).
    exists w1; auto.
  - destruct (extractAppConfigFromPrivateMetadata deps
                (appMetadataOf (payload ctx)))
      as [[config | error] | e0] eqn:Hx.
    + destruct site; try discriminate.
      destruct (tryBlock_extract_ok deps ctx w Hc Hx) as (w1 & Ht & Hr & _).
      destruct (calculateTaxes deps (payload ctx) (authData ctx));
        try discriminate; inversion Hthrown; subst.
      exists w1; auto.
    + destruct site; discriminate.
    + destruct site; try discriminate; inversion Hthrown; subst.
      destruct (tryBlock_extract_throws deps ctx w Hc Hx) as (w1 & Ht & Hr & _).
      exists w1; auto.
Qed.

(** C3: when the provider fails with an unrecognized exception, the use
    case (as section 4.3 describes it) returns the UnhandledError variant
    carrying the cause; the handler then reports that error object to the
    error tracker once, after whatever the payload checker and the
    logging catch reported before the use case ran, and answers 500. *)
Theorem unrecognized_provider_exception_is_reported_once
    (u : UseCaseDeps TaxValue AppConfig ConfigError) deps ctx w
    (config tenantConfig : AppConfig) (cause : JsError) :
  checkerThrown (checkPayload deps (payload ctx)) = None ->
  extractAppConfigFromPrivateMetadata deps (appMetadataOf (payload ctx))
    = Normal (Ok config) ->
  isCompleteEnough u (payload ctx) = true ->
  resolveConfiguration u (payload ctx) (authData ctx) = Ok tenantConfig ->
  provider u tenantConfig (payload ctx) = ProviderUnexpectedFailure cause ->
  specCalculateTaxes u (payload ctx) (authData ctx)
    = Err (unhandledErrorOf u cause) /\
  completion
    (handler SALEOR_VERSION (withCalculateTaxes deps (useCaseOfSpec u)) ctx) w
    = Normal tt /\
  captured
    (exec
       (handler SALEOR_VERSION (withCalculateTaxes deps (useCaseOfSpec u)) ctx)
       w) =
    (captured w
     ++ checkerReported (checkPayload deps (payload ctx))
     ++ loggingReport
          (logConfiguration deps config
             (slug (channel (taxBase (payload ctx)))))
     ++ [errorObject (unhandledErrorOf u cause)])%list /\
  responses
    (exec
       (handler SALEOR_VERSION (withCalculateTaxes deps (useCaseOfSpec u)) ctx)
       w) =
    (responses w ++
     [{| status := 500;
         body := JsonMessage
                   ("Failed to calculate taxes (Unhandled error) for checkout: "
                    ++ id (sourceObject (taxBase (payload ctx)))) |}])%list.
Proof.
  intros Hc Hx Hcomplete Hconfig Hprovider.
  assert (Hspec : specCalculateTaxes u (payload ctx) (authData ctx)
                  = Err (unhandledErrorOf u cause)).
  { unfold specCalculateTaxes. rewrite Hcomplete, Hconfig, Hprovider.
    reflexivity. }
  split; [exact Hspec |].
  destruct (tryBlock_extract_ok (withCalculateTaxes deps (useCaseOfSpec u))
              ctx w Hc Hx) as (w1 & Ht & Hr & Hcap & _).
  unfold completion, exec. rewrite handler_run, Ht.
  cbn [calculateTaxes withCalculateTaxes]. unfold useCaseOfSpec.
  rewrite Hspec. cbn [promiseOf onResult].
  unfold onErr, errorObject, unhandledErrorOf.
  cbn [variant classOf constructor]. run.
  cbn [fst snd addResponse addLogs addCaptured responses captured].
  rewrite Hr, Hcap.
  cbn [logConfiguration withCalculateTaxes checkPayload].
  rewrite <- !app_assoc. repeat split; reflexivity.
Qed.

(** X25: an AvataxInvalidAddressError thrown inside the [try] block by
    the payload check, the config extraction or the call of the use case
    is caught by the handler and answered 400 with the fixed address
    message; a ConfigBrokenError is answered 500, by another response. *)
Theorem address_error_in_try_block_is_answered_400
    deps ctx w (site : ThrowSite) e :
  reachesOuterCatch site = true ->
  thrownAt deps ctx site = Some e ->
  instanceofAvataxInvalidAddressError e = true ->
  completion (handler SALEOR_VERSION deps ctx) w = Normal tt /\
  responses (exec (handler SALEOR_VERSION deps ctx) w) =
    (responses w ++
     [{| status := 400;
         body := JsonMessage
                   "InvalidAppAddressError: Check address in app configuration" |}])%list /\
  forall broken : TaxError,
    variant broken = IsConfigBrokenError ->
    exists r,
      responses (exec (onResult ctx (Err (errorObject broken))) w) =
        (responses w ++ [r])%list /\
      status r = 500 /\
      r <> invalidAddressResponse.
Proof.
  intros Hsite Hthrown Haddr.
  destruct (thrown_in_try_block deps ctx w site Hsite Hthrown)
    as (w1 & Ht & Hr).
  unfold completion, exec. rewrite handler_run, Ht, Haddr.
  cbn [fst snd addResponse addLogs responses]. rewrite Hr.
  repeat split.
  intros broken Hvariant.
  destruct (onErr_run (payload ctx) broken w) as (message & Hrun & _).
  exists {| status := 500; body := JsonMessage message |}.
  cbn [onResult]. rewrite Hrun, Hvariant. cbn.
  repeat split. discriminate.
Qed.

(** X26: an exception other than an AvataxInvalidAddressError thrown
    inside the [try] block by the payload check, the config extraction or
    the call of the use case is caught by the outer [catch], which reports
    it to the error tracker once and answers 500 with the fixed body
    [{message: "Unhandled error"}]; no response was sent before it, and
    the handler completes normally. *)
Theorem other_exception_in_try_block_is_answered_500
    deps ctx w (site : ThrowSite) e :
  reachesOuterCatch site = true ->
  thrownAt deps ctx site = Some e ->
  instanceofAvataxInvalidAddressError e = false ->
  exists w1,
    tryBlock SALEOR_VERSION deps ctx w = (Throw e, w1) /\
    completion (handler SALEOR_VERSION deps ctx) w = Normal tt /\
    captured (exec (handler SALEOR_VERSION deps ctx) w) =
      (captured w1 ++ [e])%list /\
    responses (exec (handler SALEOR_VERSION deps ctx) w) =
      (responses w ++
       [{| status := 500; body := JsonMessage "Unhandled error" |}])%list.
Proof.
  intros Hsite Hthrown Haddr.
  destruct (thrown_in_try_block deps ctx w site Hsite Hthrown)
    as (w1 & Ht & Hr).
  exists w1. split; [exact Ht |].
  unfold completion, exec. rewrite handler_run, Ht, Haddr.
  cbn [fst snd addResponse addCaptured responses captured]. rewrite Hr.
  repeat split.
Qed.

(** The extraction step, with its logging. *)
Lemma extractConfig_run deps (md : list MetadataItem) (channelSlug : string) w :
  completion (extractConfig deps md channelSlug) w
    = extractAppConfigFromPrivateMetadata deps md /\
  captured (exec (extractConfig deps md channelSlug) w) =
    (captured w ++
     match extractAppConfigFromPrivateMetadata deps md with
     | Normal (Ok config) =>
         loggingReport (logConfiguration deps config channelSlug)
     | _ => []
     end)%list.
Proof.
  unfold completion, exec, extractConfig, loggingReport. run.
  destruct (extractAppConfigFromPrivateMetadata deps md)
    as [[config | error] | e]; run;
    try (cbn; rewrite app_nil_r; split; reflexivity).
  rewrite runLogger_run.
  destruct (loggerThrown (logConfiguration deps config channelSlug));
    run; cbn; rewrite ?app_nil_r; split; reflexivity.
Qed.

(** C7: two runs of the handler that differ only in what the
    configuration-logging step does (succeed or throw, and what it logs)
    complete the same way and send the same responses; the extraction
    step yields the extractor's own result whatever the logging does, and
    a logging failure is reported to the error tracker, wrapped in a
    LogConfigurationMetricError. *)
Theorem logging_outcome_does_not_change_response
    deps ctx w (f g : AppConfig -> string -> LoggerRun) :
  completion (handler SALEOR_VERSION (withLogConfiguration deps f) ctx) w =
  completion (handler SALEOR_VERSION (withLogConfiguration deps g) ctx) w /\
  responses (exec (handler SALEOR_VERSION (withLogConfiguration deps f) ctx) w) =
  responses (exec (handler SALEOR_VERSION (withLogConfiguration deps g) ctx) w) /\
  (forall (md : list MetadataItem) (channelSlug : string),
     completion (extractConfig (withLogConfiguration deps f) md channelSlug) w
       = extractAppConfigFromPrivateMetadata deps md /\
     captured
       (exec (extractConfig (withLogConfiguration deps f) md channelSlug) w) =
       (captured w ++
        match extractAppConfigFromPrivateMetadata deps md with
        | Normal (Ok config) => loggingReport (f config channelSlug)
        | _ => []
        end)%list).
Proof.
  split; [| split].
  3: { intros md channelSlug.
       exact (extractConfig_run (withLogConfiguration deps f) md channelSlug w). }
  all: unfold completion, exec; rewrite !handler_run.
  all: destruct (checkerThrown (checkPayload deps (payload ctx)))
         as [e |] eqn:Hc.
  1, 3:
    destruct (tryBlock_checker_throws (withLogConfiguration deps f) ctx w Hc)
      as (w1 & Ht1 & Hr1 & _);
    destruct (tryBlock_checker_throws (withLogConfiguration deps g) ctx w Hc)
      as (w2 & Ht2 & Hr2 & _);
    rewrite Ht1, Ht2;
    destruct (instanceofAvataxInvalidAddressError e); cbn;
    rewrite ?Hr1, ?Hr2; reflexivity.
  all: destruct (extractAppConfigFromPrivateMetadata deps
                   (appMetadataOf (payload ctx)))
         as [[config | error] | e] eqn:Hx.
  1, 4:
    destruct (tryBlock_extract_ok (withLogConfiguration deps f) ctx w Hc Hx)
      as (w1 & Ht1 & Hr1 & _);
    destruct (tryBlock_extract_ok (withLogConfiguration deps g) ctx w Hc Hx)
      as (w2 & Ht2 & Hr2 & _);
    rewrite Ht1, Ht2; cbn [calculateTaxes withLogConfiguration];
    destruct (calculateTaxes deps (payload ctx) (authData ctx))
      as [e | e | result]; cbn [promiseOf];
    [ destruct (instanceofAvataxInvalidAddressError e); cbn;
      rewrite ?Hr1, ?Hr2; reflexivity
    | cbn; rewrite ?Hr1, ?Hr2; reflexivity
    | destruct (onResult_frame ctx result) as (rs & _ & Hrs);
      destruct (Hrs w1) as (Hc1 & Hs1); destruct (Hrs w2) as (Hc2 & Hs2);
      unfold completion, exec in *;
      rewrite ?Hc1, ?Hc2, ?Hs1, ?Hs2, ?Hr1, ?Hr2; reflexivity ].
  1, 3:
    destruct (tryBlock_extract_err (withLogConfiguration deps f) ctx w Hc Hx)
      as (w1 & Ht1 & Hr1 & _);
    destruct (tryBlock_extract_err (withLogConfiguration deps g) ctx w Hc Hx)
      as (w2 & Ht2 & Hr2 & _);
    rewrite Ht1, Ht2; cbn; rewrite ?Hr1, ?Hr2; reflexivity.
  all:
    destruct (tryBlock_extract_throws (withLogConfiguration deps f) ctx w Hc Hx)
      as (w1 & Ht1 & Hr1 & _);
    destruct (tryBlock_extract_throws (withLogConfiguration deps g) ctx w Hc Hx)
      as (w2 & Ht2 & Hr2 & _);
    rewrite Ht1, Ht2;
    destruct (instanceofAvataxInvalidAddressError e); cbn;
    rewrite ?Hr1, ?Hr2; reflexivity.
Qed.

(** C10: when the payload has no recipient, or a recipient without
    private metadata, the extractor is given the empty list.  Absence of
    metadata does not by itself end the request: the handler sends the
    broken-configuration 400 of line 85 exactly when the extractor returns
    an error on the empty list (and then neither fills the cache nor
    invokes the use case); when the extractor returns a configuration, the
    empty list is stored in the metadata cache, the use case is invoked
    once with the payload and the auth data, and the broken-configuration
    response is not among the responses sent. *)
Theorem absent_metadata_is_the_empty_list deps ctx w :
  (recipient (payload ctx) = None \/
   exists r, recipient (payload ctx) = Some r /\ privateMetadata r = None) ->
  checkerThrown (checkPayload deps (payload ctx)) = None ->
  appMetadataOf (payload ctx) = [] /\
  (forall error : ConfigError,
     extractAppConfigFromPrivateMetadata deps [] = Normal (Err error) ->
     responses (exec (handler SALEOR_VERSION deps ctx) w) =
       (responses w ++ [brokenConfigResponse (payload ctx)])%list /\
     metadataCache (exec (handler SALEOR_VERSION deps ctx) w)
       = metadataCache w /\
     useCaseCalls (exec (handler SALEOR_VERSION deps ctx) w)
       = useCaseCalls w) /\
  (forall config : AppConfig,
     extractAppConfigFromPrivateMetadata deps [] = Normal (Ok config) ->
     metadataCache (exec (handler SALEOR_VERSION deps ctx) w) = Some [] /\
     useCaseCalls (exec (handler SALEOR_VERSION deps ctx) w) =
       (useCaseCalls w ++ [(payload ctx, authData ctx)])%list /\
     exists rs,
       responses (exec (handler SALEOR_VERSION deps ctx) w)
         = (responses w ++ rs)%list /\
       ~ In (brokenConfigResponse (payload ctx)) rs).
Proof.
  intros Habsent Hc.
  assert (Hmd : appMetadataOf (payload ctx) = []).
  { unfold appMetadataOf.
    destruct Habsent as [Hnone | (r & Hsome & Hpm)].
    - rewrite Hnone. reflexivity.
    - rewrite Hsome, Hpm. reflexivity. }
  split; [exact Hmd |]. split.
  - intros error Hx. rewrite <- Hmd in Hx.
    destruct (tryBlock_extract_err deps ctx w Hc Hx)
      as (w1 & Ht & Hr & _ & Hm & Hu).
    unfold exec. rewrite handler_run, Ht. cbn [snd]. auto.
  - intros config Hx. rewrite <- Hmd in Hx.
    destruct (tryBlock_extract_ok deps ctx w Hc Hx)
      as (w1 & Ht & Hr & _ & Hm & Hu).
    rewrite Hmd in Hm.
    unfold exec. rewrite handler_run, Ht.
    destruct (calculateTaxes deps (payload ctx) (authData ctx))
      as [e | e | result]; cbn [promiseOf].
    + destruct (instanceofAvataxInvalidAddressError e); cbn;
        rewrite Hm, Hu, Hr; (split; [reflexivity |]);
        (split; [reflexivity |]); eexists [_]; (split; [reflexivity |]);
        intros [Hin | []]; discriminate Hin.
    + cbn [snd]. rewrite Hm, Hu, Hr. repeat split.
      exists []. rewrite app_nil_r. split; [reflexivity | intros []].
    + destruct (onResult_frame ctx result) as (rs & Hrs & Hrun).
      destruct (Hrun w1) as (_ & Hs). unfold exec in Hs.
      assert (Hkeep : metadataCache (snd (onResult ctx result w1))
                        = metadataCache w1 /\
                      useCaseCalls (snd (onResult ctx result w1))
                        = useCaseCalls w1).
      { destruct result as [value | [[] msg cause]];
          cbn [onResult]; unfold onErr; cbn [constructor]; run;
          split; reflexivity. }
      destruct Hkeep as (Hkm & Hku).
      rewrite Hkm, Hku, Hs, Hm, Hu, Hr.
      repeat split. exists rs. split; [reflexivity |].
      intro Hin. rewrite Forall_forall in Hrs.
      exact (Hrs _ Hin eq_refl).
Qed.

(** X2: the promise of line 92 is returned without [await]: when it rejects,
    the [catch] of line 127 does not run.  The handler's own promise
    rejects with the same reason, and the handler has sent no response
    and reported nothing beyond what preceded the call. *)
Lemma rejected_promise_is_not_caught deps ctx w (config : AppConfig) e :
  checkerThrown (checkPayload deps (payload ctx)) = None ->
  extractAppConfigFromPrivateMetadata deps (appMetadataOf (payload ctx))
    = Normal (Ok config) ->
  calculateTaxes deps (payload ctx) (authData ctx) = Rejects e ->
  completion (handler SALEOR_VERSION deps ctx) w = Throw e /\
  responses (exec (handler SALEOR_VERSION deps ctx) w) = responses w /\
  captured (exec (handler SALEOR_VERSION deps ctx) w) =
    (captured w
     ++ checkerReported (checkPayload deps (payload ctx))
     ++ loggingReport
          (logConfiguration deps config
             (slug (channel (taxBase (payload ctx))))))%list.
Proof.
  intros Hc Hx Hu.
  destruct (tryBlock_extract_ok deps ctx w Hc Hx)
    as (w1 & Ht & Hr & Hcap & _).
  unfold completion, exec. rewrite handler_run, Ht, Hu.
  cbn [promiseOf fst snd]. auto.
Qed.

(** *** Further facts about the handler *)

(** [result.match] touches nothing but the logs, the error tracker and
    the response. *)
Lemma onResult_keeps ctx (result : Result TaxValue JsError) w :
  metadataCache (exec (onResult ctx result) w) = metadataCache w /\
  useCaseCalls (exec (onResult ctx result) w) = useCaseCalls w /\
  loggerContext (exec (onResult ctx result) w) = loggerContext w /\
  sentryTags (exec (onResult ctx result) w) = sentryTags w.
Proof.
  unfold exec.
  destruct result as [value | [[] msg cause]];
    cbn [onResult]; unfold onErr; cbn [constructor]; run;
    repeat split; reflexivity.
Qed.

Lemma path_of deps ctx : Path deps ctx.
Proof.
  destruct (checkerThrown (checkPayload deps (payload ctx))) as [e |] eqn:Hc.
  - exact (CheckerThrew deps ctx Hc).
  - destruct (extractAppConfigFromPrivateMetadata deps
                (appMetadataOf (payload ctx)))
      as [[config | error] | e] eqn:Hx.
    + exact (UseCaseReached deps ctx Hc Hx).
    + exact (ExtractorFailed deps ctx Hc Hx).
    + exact (ExtractorThrew deps ctx Hc Hx).
Qed.

(** X1: whatever the collaborators do, one run of the handler sends at
    most one response. *)
Theorem at_most_one_response deps ctx w :
  exists rs,
    responses (exec (handler SALEOR_VERSION deps ctx) w)
      = (responses w ++ rs)%list /\
    (length rs <= 1)%nat.
Proof.
  unfold exec. rewrite handler_run.
  destruct (path_of deps ctx) as [e Hc | e Hc Hx | error Hc Hx | config Hc Hx].
  - destruct (tryBlock_checker_throws deps ctx w Hc) as (w1 & Ht & Hr & _).
    rewrite Ht.
    destruct (instanceofAvataxInvalidAddressError e); cbn; rewrite Hr;
      eexists [_]; split; [reflexivity | cbn; lia | reflexivity | cbn; lia].
  - destruct (tryBlock_extract_throws deps ctx w Hc Hx) as (w1 & Ht & Hr & _).
    rewrite Ht.
    destruct (instanceofAvataxInvalidAddressError e); cbn; rewrite Hr;
      eexists [_]; split; [reflexivity | cbn; lia | reflexivity | cbn; lia].
  - destruct (tryBlock_extract_err deps ctx w Hc Hx) as (w1 & Ht & Hr & _).
    rewrite Ht. cbn [snd]. rewrite Hr.
    eexists [_]; split; [reflexivity | cbn; lia].
  - destruct (tryBlock_extract_ok deps ctx w Hc Hx) as (w1 & Ht & Hr & _).
    rewrite Ht.
    destruct (calculateTaxes deps (payload ctx) (authData ctx))
      as [e | e | result]; cbn [promiseOf].
    + destruct (instanceofAvataxInvalidAddressError e); cbn; rewrite Hr;
        eexists [_]; split; [reflexivity | cbn; lia | reflexivity | cbn; lia].
    + cbn [snd]. rewrite Hr. exists []. rewrite app_nil_r.
      split; [reflexivity | cbn; lia].
    + destruct result as [value | [[] msg cause]];
        cbn [onResult]; unfold onErr; cbn [constructor]; run;
        cbn [snd responses addResponse addLogs addCaptured]; rewrite Hr;
        first [ exists []; rewrite app_nil_r; split; [reflexivity | cbn; lia]
              | eexists [_]; split; [reflexivity | cbn; lia] ].
Qed.

Lemma app_one_neq {A} (l : list A) (x : A) : (l ++ [x])%list <> l.
Proof.
  intro H. apply (f_equal (@length A)) in H.
  rewrite length_app in H. cbn in H. lia.
Qed.

(** X3: an error object in the Result whose constructor is none of the
    four case labels falls through the switch: the handler's promise
    fulfils, no response is sent, and the error is not reported. *)
Theorem unlabelled_result_error_gets_no_response
    deps ctx w (config : AppConfig) (err : JsError) :
  checkerThrown (checkPayload deps (payload ctx)) = None ->
  extractAppConfigFromPrivateMetadata deps (appMetadataOf (payload ctx))
    = Normal (Ok config) ->
  calculateTaxes deps (payload ctx) (authData ctx) = Resolves (Err err) ->
  ~ In (constructor err) caseLabels ->
  completion (handler SALEOR_VERSION deps ctx) w = Normal tt /\
  responses (exec (handler SALEOR_VERSION deps ctx) w) = responses w /\
  captured (exec (handler SALEOR_VERSION deps ctx) w) =
    (captured w
     ++ checkerReported (checkPayload deps (payload ctx))
     ++ loggingReport
          (logConfiguration deps config
             (slug (channel (taxBase (payload ctx))))))%list.
Proof.
  intros Hc Hx Hu Hnot.
  destruct (tryBlock_extract_ok deps ctx w Hc Hx)
    as (w1 & Ht & Hr & Hcap & _).
  unfold completion, exec. rewrite handler_run, Ht, Hu.
  cbn [promiseOf onResult]. unfold onErr.
  destruct err as [[] msg cause]; cbn [constructor] in *;
    try (exfalso; apply Hnot; cbn; tauto);
    run; cbn; auto.
Qed.

(** X4: the handler leaves a request without a response only in two
    cases, both after the use case was invoked: the promise of the use
    case rejects, or it fulfils with an error whose constructor is none of
    the four case labels. *)
Theorem no_response_only_after_use_case deps ctx w :
  responses (exec (handler SALEOR_VERSION deps ctx) w) = responses w ->
  exists config : AppConfig,
    checkerThrown (checkPayload deps (payload ctx)) = None /\
    extractAppConfigFromPrivateMetadata deps (appMetadataOf (payload ctx))
      = Normal (Ok config) /\
    ((exists e,
        calculateTaxes deps (payload ctx) (authData ctx) = Rejects e) \/
     (exists err,
        calculateTaxes deps (payload ctx) (authData ctx)
          = Resolves (Err err) /\
        ~ In (constructor err) caseLabels)).
Proof.
  unfold exec. rewrite handler_run.
  destruct (path_of deps ctx) as [e Hc | e Hc Hx | error Hc Hx | config Hc Hx].
  - destruct (tryBlock_checker_throws deps ctx w Hc) as (w1 & Ht & Hr & _).
    rewrite Ht.
    destruct (instanceofAvataxInvalidAddressError e); cbn; rewrite Hr;
      intro H; elim (@app_one_neq _ _ _ H).
  - destruct (tryBlock_extract_throws deps ctx w Hc Hx) as (w1 & Ht & Hr & _).
    rewrite Ht.
    destruct (instanceofAvataxInvalidAddressError e); cbn; rewrite Hr;
      intro H; elim (@app_one_neq _ _ _ H).
  - destruct (tryBlock_extract_err deps ctx w Hc Hx) as (w1 & Ht & Hr & _).
    rewrite Ht. cbn [snd]. rewrite Hr.
    intro H; elim (@app_one_neq _ _ _ H).
  - destruct (tryBlock_extract_ok deps ctx w Hc Hx) as (w1 & Ht & Hr & _).
    rewrite Ht. exists config. split; [exact Hc |]. split; [exact Hx |].
    destruct (calculateTaxes deps (payload ctx) (authData ctx))
      as [e | e | result]; cbn [promiseOf] in *.
    + revert H.
      destruct (instanceofAvataxInvalidAddressError e); cbn; rewrite Hr;
        intro H; elim (@app_one_neq _ _ _ H).
    + left. exists e. reflexivity.
    + right. revert H.
      destruct result as [value | [[] msg cause]];
        cbn [onResult]; unfold onErr; cbn [constructor]; run;
        cbn [snd responses addResponse addLogs addCaptured]; rewrite Hr;
        intro H; try (elim (@app_one_neq _ _ _ H));
        (eexists; split; [reflexivity |]); cbn;
        intros [Hl | [Hl | [Hl | [Hl | []]]]]; discriminate Hl.
Qed.

(** X5: the use case is invoked at most once per request, with the
    payload and auth data of the context, and the metadata cache is
    written exactly when it is invoked: with the metadata list the
    configuration was extracted from. *)
Theorem cache_written_exactly_when_use_case_invoked deps ctx w :
  (useCaseCalls (exec (handler SALEOR_VERSION deps ctx) w) = useCaseCalls w /\
   metadataCache (exec (handler SALEOR_VERSION deps ctx) w) = metadataCache w)
  \/
  (useCaseCalls (exec (handler SALEOR_VERSION deps ctx) w) =
     (useCaseCalls w ++ [(payload ctx, authData ctx)])%list /\
   metadataCache (exec (handler SALEOR_VERSION deps ctx) w) =
     Some (appMetadataOf (payload ctx))).
Proof.
  unfold exec. rewrite handler_run.
  destruct (path_of deps ctx) as [e Hc | e Hc Hx | error Hc Hx | config Hc Hx].
  - destruct (tryBlock_checker_throws deps ctx w Hc)
      as (w1 & Ht & _ & _ & Hm & Hu).
    rewrite Ht. left.
    destruct (instanceofAvataxInvalidAddressError e); cbn; auto.
  - destruct (tryBlock_extract_throws deps ctx w Hc Hx)
      as (w1 & Ht & _ & _ & Hm & Hu).
    rewrite Ht. left.
    destruct (instanceofAvataxInvalidAddressError e); cbn; auto.
  - destruct (tryBlock_extract_err deps ctx w Hc Hx)
      as (w1 & Ht & _ & _ & Hm & Hu).
    rewrite Ht. left. cbn; auto.
  - destruct (tryBlock_extract_ok deps ctx w Hc Hx)
      as (w1 & Ht & _ & _ & Hm & Hu).
    rewrite Ht. right.
    destruct (calculateTaxes deps (payload ctx) (authData ctx))
      as [e | e | result]; cbn [promiseOf].
    + destruct (instanceofAvataxInvalidAddressError e); cbn; auto.
    + cbn; auto.
    + destruct (onResult_keeps ctx result w1) as (Hkm & Hku & _).
      unfold exec in *. rewrite Hkm, Hku. auto.
Qed.

(** The trace context after the [try] block. *)
Lemma tryBlock_context deps ctx w :
  loggerContext (snd (tryBlock SALEOR_VERSION deps ctx w)) =
    (loggerContext w ++
     match checkerThrown (checkPayload deps (payload ctx)) with
     | Some _ => []
     | None =>
         [("channelSlug", slug (channel (taxBase (payload ctx))));
          ("checkoutId", id (sourceObject (taxBase (payload ctx))))]
         ++ versionTag SALEOR_VERSION (payload ctx)
     end)%list /\
  sentryTags (snd (tryBlock SALEOR_VERSION deps ctx w)) =
    (sentryTags w ++
     match checkerThrown (checkPayload deps (payload ctx)) with
     | Some _ => []
     | None => versionTag SALEOR_VERSION (payload ctx)
     end)%list.
Proof.
  unfold tryBlock, extractConfig, callUseCase, versionTag. js_unfold.
  rewrite runChecker_run.
  destruct (checkerThrown (checkPayload deps (payload ctx))) as [e |].
  { cbn. rewrite !app_nil_r. split; reflexivity. }
  run.
  destruct (version (payload ctx)) as [[| c v] |]; cbn [truthy]; run;
    (destruct (extractAppConfigFromPrivateMetadata deps
                 (appMetadataOf (payload ctx)))
       as [[config | error] | e]; run; cbn [isErr]; run;
     [ rewrite runLogger_run;
       destruct (loggerThrown _); run;
       destruct (calculateTaxes deps (payload ctx) (authData ctx)); run
     | | ]);
    cbn; rewrite <- ?app_assoc, ?app_nil_r; split; reflexivity.
Qed.

(** X6: when the payload check returns, the handler puts the channel
    slug and the checkout id into the logger context, in that order,
    followed by the platform version when the payload has a non-empty one;
    the same version is the only Sentry tag it sets.  When the payload
    check throws, neither is touched. *)
Theorem trace_context_of_a_request deps ctx w :
  loggerContext (exec (handler SALEOR_VERSION deps ctx) w) =
    (loggerContext w ++
     match checkerThrown (checkPayload deps (payload ctx)) with
     | Some _ => []
     | None =>
         [("channelSlug", slug (channel (taxBase (payload ctx))));
          ("checkoutId", id (sourceObject (taxBase (payload ctx))))]
         ++ versionTag SALEOR_VERSION (payload ctx)
     end)%list /\
  sentryTags (exec (handler SALEOR_VERSION deps ctx) w) =
    (sentryTags w ++
     match checkerThrown (checkPayload deps (payload ctx)) with
     | Some _ => []
     | None => versionTag SALEOR_VERSION (payload ctx)
     end)%list.
Proof.
  destruct (tryBlock_context deps ctx w) as (Hl & Hs).
  unfold exec. rewrite handler_run.
  destruct (tryBlock SALEOR_VERSION deps ctx w)
    as [[[| [result | reason]] | error] w1]; cbn [snd] in Hl, Hs.
  - cbn [snd]. auto.
  - destruct (onResult_keeps ctx result w1) as (_ & _ & Hkl & Hks).
    unfold exec in *. rewrite Hkl, Hks. auto.
  - cbn [snd]. auto.
  - destruct (instanceofAvataxInvalidAddressError error); cbn; auto.
Qed.

(** X7: the error callback reports an error to the error tracker exactly
    when its constructor is UnhandledError; errors of every other class
    are answered (or fall through) without a report. *)
Theorem only_unhandled_errors_are_reported (p : Payload) (err : JsError) w :
  (constructor err = UnhandledError ->
   captured (exec (onErr p err) w) = (captured w ++ [err])%list) /\
  (constructor err <> UnhandledError ->
   captured (exec (onErr p err) w) = captured w).
Proof.
  unfold exec, onErr.
  destruct err as [[] msg cause]; cbn [constructor]; run; cbn;
    split; intro H; try reflexivity; try discriminate H;
    exfalso; apply H; reflexivity.
Qed.

(** X8: an AvataxInvalidAddressError caught by the outer [catch] is
    answered but not reported: the error tracker holds what it held when
    the exception left the [try] block. *)
Theorem caught_address_error_is_not_reported
    deps ctx w (site : ThrowSite) e :
  reachesOuterCatch site = true ->
  thrownAt deps ctx site = Some e ->
  instanceofAvataxInvalidAddressError e = true ->
  exists w1,
    tryBlock SALEOR_VERSION deps ctx w = (Throw e, w1) /\
    captured (exec (handler SALEOR_VERSION deps ctx) w) = captured w1.
Proof.
  intros Hsite Hthrown Haddr.
  destruct (thrown_in_try_block deps ctx w site Hsite Hthrown)
    as (w1 & Ht & Hr).
  exists w1. split; [exact Ht |].
  unfold exec. rewrite handler_run, Ht, Haddr. reflexivity.
Qed.

(** X9: a request answered from a success value reports nothing of its
    own: the error tracker receives only what the payload checker
    reported and, if the logging step threw, the wrapped logging
    failure. *)
Theorem success_reports_nothing_of_its_own
    deps ctx w (config : AppConfig) (value : TaxValue) :
  checkerThrown (checkPayload deps (payload ctx)) = None ->
  extractAppConfigFromPrivateMetadata deps (appMetadataOf (payload ctx))
    = Normal (Ok config) ->
  calculateTaxes deps (payload ctx) (authData ctx) = Resolves (Ok value) ->
  captured (exec (handler SALEOR_VERSION deps ctx) w) =
    (captured w
     ++ checkerReported (checkPayload deps (payload ctx))
     ++ loggingReport
          (logConfiguration deps config
             (slug (channel (taxBase (payload ctx))))))%list.
Proof.
  intros Hc Hx Hu.
  destruct (tryBlock_extract_ok deps ctx w Hc Hx)
    as (w1 & Ht & _ & Hcap & _).
  unfold exec. rewrite handler_run, Ht, Hu.
  cbn [promiseOf onResult]. run. cbn. exact Hcap.
Qed.

(** X10: when the payload check or the config extraction throws, the use
    case is not invoked and the metadata cache is left as it was. *)
Theorem early_exception_skips_use_case deps ctx w e :
  thrownAt deps ctx AtCheckPayload = Some e \/
  thrownAt deps ctx AtExtractAppConfig = Some e ->
  useCaseCalls (exec (handler SALEOR_VERSION deps ctx) w) = useCaseCalls w /\
  metadataCache (exec (handler SALEOR_VERSION deps ctx) w) = metadataCache w.
Proof.
  unfold thrownAt. intros Hthrown.
  unfold exec. rewrite handler_run.
  destruct (path_of deps ctx) as [e0 Hc | e0 Hc Hx | error Hc Hx | config Hc Hx];
    rewrite Hc in Hthrown; try rewrite Hx in Hthrown.
  - destruct (tryBlock_checker_throws deps ctx w Hc)
      as (w1 & Ht & _ & _ & Hm & Hu).
    rewrite Ht.
    destruct (instanceofAvataxInvalidAddressError e0); cbn; auto.
  - destruct (tryBlock_extract_throws deps ctx w Hc Hx)
      as (w1 & Ht & _ & _ & Hm & Hu).
    rewrite Ht.
    destruct (instanceofAvataxInvalidAddressError e0); cbn; auto.
  - destruct Hthrown; discriminate.
  - destruct Hthrown; discriminate.
Qed.


End Facts.

(** The theorems above, at the concrete request. *)

Lemma error_variant_status_and_message_witness :
  exists message,
    completion
      (handler sampleVersion
         (sampleDeps quietLogger
            (Resolves (Err (errorObject
                              (sampleTaxError IsExpectedIncompletePayloadError)))))
         sampleCtx) (emptyWorld Z) = Normal tt /\
    responses
      (exec
         (handler sampleVersion
            (sampleDeps quietLogger
               (Resolves (Err (errorObject
                                 (sampleTaxError IsExpectedIncompletePayloadError)))))
            sampleCtx) (emptyWorld Z)) =
      [{| status := 400; body := JsonMessage message |}] /\
    mentions message "Q2hlY2tvdXQ6MQ".
Proof.
  exact (error_variant_status_and_message sampleVersion
           (sampleDeps quietLogger
              (Resolves (Err (errorObject
                                (sampleTaxError IsExpectedIncompletePayloadError)))))
           sampleCtx (emptyWorld Z) (config := tt)
           (err := sampleTaxError IsExpectedIncompletePayloadError)
           eq_refl eq_refl eq_refl).
Defined.

Lemma success_is_answered_200_witness :
  completion
    (handler sampleVersion (sampleDeps quietLogger (Resolves (Ok 21)))
       sampleCtx) (emptyWorld Z) = Normal tt /\
  responses
    (exec
       (handler sampleVersion (sampleDeps quietLogger (Resolves (Ok 21)))
          sampleCtx) (emptyWorld Z)) =
    [{| status := 200; body := JsonPayload 42 |}].
Proof.
  exact (success_is_answered_200 sampleVersion
           (sampleDeps quietLogger (Resolves (Ok 21)))
           sampleCtx (emptyWorld Z) (config := tt) (value := 21)
           eq_refl eq_refl eq_refl).
Defined.

Lemma broken_config_is_answered_400_witness :
  responses
    (exec
       (handler sampleVersion (sampleDeps quietLogger (Resolves (Ok 21)))
          sampleBareCtx) (emptyWorld Z)) =
    [{| status := 400;
        body := JsonMessage
                  "App configuration is broken for checkout: Q2hlY2tvdXQ6MQ" |}] /\
  useCaseCalls
    (exec
       (handler sampleVersion (sampleDeps quietLogger (Resolves (Ok 21)))
          sampleBareCtx) (emptyWorld Z)) = [] /\
  metadataCache
    (exec
       (handler sampleVersion (sampleDeps quietLogger (Resolves (Ok 21)))
          sampleBareCtx) (emptyWorld Z)) = None.
Proof.
  destruct (broken_config_is_answered_400 sampleVersion
              (sampleDeps quietLogger (Resolves (Ok 21)))
              sampleBareCtx (emptyWorld Z) (error := tt) eq_refl eq_refl)
    as (_ & Hr & _ & Hu & Hm).
  exact (conj Hr (conj Hu Hm)).
Defined.

Lemma unrecognized_provider_exception_is_reported_once_witness :
  captured
    (exec
       (handler sampleVersion
          (withCalculateTaxes (sampleDeps quietLogger (Resolves (Ok 21)))
             (useCaseOfSpec sampleUseCaseDeps))
          sampleCtx) (emptyWorld Z)) =
    [mkError UnhandledError "use case failed" (Some typeError)] /\
  responses
    (exec
       (handler sampleVersion
          (withCalculateTaxes (sampleDeps quietLogger (Resolves (Ok 21)))
             (useCaseOfSpec sampleUseCaseDeps))
          sampleCtx) (emptyWorld Z)) =
    [{| status := 500;
        body := JsonMessage
                  "Failed to calculate taxes (Unhandled error) for checkout: Q2hlY2tvdXQ6MQ" |}].
Proof.
  destruct (unrecognized_provider_exception_is_reported_once sampleVersion
              sampleUseCaseDeps (sampleDeps quietLogger (Resolves (Ok 21)))
              sampleCtx (emptyWorld Z) (config := tt) (tenantConfig := tt)
              (cause := typeError)
              eq_refl eq_refl eq_refl eq_refl eq_refl)
    as (_ & _ & Hcap & Hres).
  exact (conj Hcap Hres).
Defined.

Lemma address_error_in_try_block_is_answered_400_witness :
  responses
    (exec
       (handler sampleVersion
          (sampleDeps quietLogger (ThrowsSync addressError)) sampleCtx)
       (emptyWorld Z)) =
    [{| status := 400;
        body := JsonMessage
                  "InvalidAppAddressError: Check address in app configuration" |}].
Proof.
  exact (proj1 (proj2
    (address_error_in_try_block_is_answered_400 sampleVersion
       (sampleDeps quietLogger (ThrowsSync addressError)) sampleCtx
       (emptyWorld Z) AtCalculateTaxesCall (e := addressError)
       eq_refl eq_refl eq_refl))).
Defined.

(** An AvataxInvalidAddressError thrown by the configuration-logging
    step is caught by the try/catch of lines 66-77, and the request goes
    on to its ordinary answer, here 200. *)
Lemma address_error_in_logging_step_is_not_answered_400 :
  thrownAt (sampleDeps (failingLogger addressError) (Resolves (Ok 21)))
    sampleCtx AtLogConfiguration = Some addressError /\
  instanceofAvataxInvalidAddressError addressError = true /\
  responses
    (exec
       (handler sampleVersion
          (sampleDeps (failingLogger addressError) (Resolves (Ok 21)))
          sampleCtx)
       (emptyWorld Z)) =
    [{| status := 200; body := JsonPayload 42 |}] /\
  responses
    (exec
       (handler sampleVersion
          (sampleDeps (failingLogger addressError) (Resolves (Ok 21)))
          sampleCtx)
       (emptyWorld Z)) <> [invalidAddressResponse].
Proof.
  repeat split. vm_compute. discriminate.
Qed.

Lemma other_exception_in_try_block_is_answered_500_witness :
  captured
    (exec
       (handler sampleVersion
          (sampleDeps quietLogger (ThrowsSync typeError)) sampleCtx)
       (emptyWorld Z)) = [typeError] /\
  responses
    (exec
       (handler sampleVersion
          (sampleDeps quietLogger (ThrowsSync typeError)) sampleCtx)
       (emptyWorld Z)) =
    [{| status := 500; body := JsonMessage "Unhandled error" |}].
Proof.
  destruct (other_exception_in_try_block_is_answered_500 sampleVersion
              (sampleDeps quietLogger (ThrowsSync typeError)) sampleCtx
              (emptyWorld Z) AtCalculateTaxesCall (e := typeError)
              eq_refl eq_refl eq_refl)
    as (w1 & Ht & _ & Hcap & Hres).
  split; [| exact Hres].
  rewrite Hcap. injection Ht as <-. reflexivity.
Defined.

(** An exception of another class thrown by the configuration-logging
    step is not converted to a 500.  It is caught by the try/catch of
    lines 66-77 and reported wrapped in a LogConfigurationMetricError, and
    the request is answered 200. *)
Lemma exception_in_logging_step_is_not_answered_500 :
  thrownAt (sampleDeps (failingLogger typeError) (Resolves (Ok 21)))
    sampleCtx AtLogConfiguration = Some typeError /\
  instanceofAvataxInvalidAddressError typeError = false /\
  responses
    (exec
       (handler sampleVersion
          (sampleDeps (failingLogger typeError) (Resolves (Ok 21)))
          sampleCtx)
       (emptyWorld Z)) =
    [{| status := 200; body := JsonPayload 42 |}] /\
  captured
    (exec
       (handler sampleVersion
          (sampleDeps (failingLogger typeError) (Resolves (Ok 21)))
          sampleCtx)
       (emptyWorld Z)) =
    [mkError LogConfigurationMetricError
       "Failed to log configuration metric" (Some typeError)] /\
  responses
    (exec
       (handler sampleVersion
          (sampleDeps (failingLogger typeError) (Resolves (Ok 21)))
          sampleCtx)
       (emptyWorld Z)) <> [unhandledErrorResponse].
Proof.
  repeat split. vm_compute. discriminate.
Qed.

Lemma absent_metadata_is_the_empty_list_witness :
  appMetadataOf sampleBarePayload = [] /\
  metadataCache
    (exec (handler sampleVersion (lenientDeps (Resolves (Ok 21))) sampleBareCtx)
       (emptyWorld Z)) = Some [] /\
  useCaseCalls
    (exec (handler sampleVersion (lenientDeps (Resolves (Ok 21))) sampleBareCtx)
       (emptyWorld Z)) = [(sampleBarePayload, sampleAuthData)].
Proof.
  destruct (absent_metadata_is_the_empty_list sampleVersion
              (lenientDeps (Resolves (Ok 21))) sampleBareCtx (emptyWorld Z)
              (or_introl eq_refl) eq_refl)
    as (Hmd & _ & Hok).
  destruct (Hok tt eq_refl) as (Hm & Hu & _).
  exact (conj Hmd (conj Hm Hu)).
Defined.

Lemma rejected_promise_is_not_caught_witness :
  completion
    (handler sampleVersion (sampleDeps quietLogger (Rejects typeError))
       sampleCtx) (emptyWorld Z) = Throw typeError /\
  responses
    (exec
       (handler sampleVersion (sampleDeps quietLogger (Rejects typeError))
          sampleCtx) (emptyWorld Z)) = [] /\
  captured
    (exec
       (handler sampleVersion (sampleDeps quietLogger (Rejects typeError))
          sampleCtx) (emptyWorld Z)) = [].
Proof.
  exact (rejected_promise_is_not_caught sampleVersion
           (sampleDeps quietLogger (Rejects typeError)) sampleCtx
           (emptyWorld Z) (config := tt) (e := typeError)
           eq_refl eq_refl eq_refl).
Defined.

Lemma unlabelled_result_error_gets_no_response_witness :
  completion
    (handler sampleVersion
       (sampleDeps quietLogger (Resolves (Err addressError))) sampleCtx)
    (emptyWorld Z) = Normal tt /\
  responses
    (exec
       (handler sampleVersion
          (sampleDeps quietLogger (Resolves (Err addressError))) sampleCtx)
       (emptyWorld Z)) = [] /\
  captured
    (exec
       (handler sampleVersion
          (sampleDeps quietLogger (Resolves (Err addressError))) sampleCtx)
       (emptyWorld Z)) = [].
Proof.
  apply (unlabelled_result_error_gets_no_response sampleVersion
           (sampleDeps quietLogger (Resolves (Err addressError))) sampleCtx
           (emptyWorld Z) (config := tt) (err := addressError)
           eq_refl eq_refl eq_refl).
  cbn. intros [H | [H | [H | [H | []]]]]; discriminate H.
Defined.

Lemma no_response_only_after_use_case_witness :
  exists config : unit,
    checkerThrown
      (checkPayload (sampleDeps quietLogger (Rejects typeError))
         (payload sampleCtx)) = None /\
    extractAppConfigFromPrivateMetadata
      (sampleDeps quietLogger (Rejects typeError))
      (appMetadataOf (payload sampleCtx)) = Normal (Ok config) /\
    ((exists e,
        calculateTaxes (sampleDeps quietLogger (Rejects typeError))
          (payload sampleCtx) (authData sampleCtx) = Rejects e) \/
     (exists err,
        calculateTaxes (sampleDeps quietLogger (Rejects typeError))
          (payload sampleCtx) (authData sampleCtx) = Resolves (Err err) /\
        ~ In (constructor err) caseLabels)).
Proof.
  exact (no_response_only_after_use_case sampleVersion
           (sampleDeps quietLogger (Rejects typeError)) sampleCtx
           (emptyWorld Z) eq_refl).
Defined.

Lemma only_unhandled_errors_are_reported_witness :
  captured
    (exec (onErr samplePayload
             (errorObject (sampleTaxError IsUnhandledError)))
       (emptyWorld Z)) = [errorObject (sampleTaxError IsUnhandledError)] /\
  captured
    (exec (onErr samplePayload
             (errorObject (sampleTaxError IsConfigBrokenError)))
       (emptyWorld Z)) = [].
Proof.
  split.
  - exact (proj1
      (only_unhandled_errors_are_reported samplePayload
         (errorObject (sampleTaxError IsUnhandledError)) (emptyWorld Z))
      eq_refl).
  - apply (proj2
      (only_unhandled_errors_are_reported samplePayload
         (errorObject (sampleTaxError IsConfigBrokenError)) (emptyWorld Z))).
    cbn. discriminate.
Defined.

Lemma caught_address_error_is_not_reported_witness :
  captured
    (exec
       (handler sampleVersion
          (sampleDeps quietLogger (ThrowsSync addressError)) sampleCtx)
       (emptyWorld Z)) = [].
Proof.
  destruct (caught_address_error_is_not_reported sampleVersion
              (sampleDeps quietLogger (ThrowsSync addressError)) sampleCtx
              (emptyWorld Z) AtCalculateTaxesCall (e := addressError)
              eq_refl eq_refl eq_refl)
    as (w1 & Ht & Hcap).
  rewrite Hcap. injection Ht as <-. reflexivity.
Defined.

Lemma success_reports_nothing_of_its_own_witness :
  captured
    (exec
       (handler sampleVersion
          (sampleDeps (failingLogger typeError) (Resolves (Ok 21)))
          sampleCtx)
       (emptyWorld Z)) =
    [mkError LogConfigurationMetricError
       "Failed to log configuration metric" (Some typeError)].
Proof.
  exact (success_reports_nothing_of_its_own sampleVersion
           (sampleDeps (failingLogger typeError) (Resolves (Ok 21)))
           sampleCtx (emptyWorld Z) (config := tt) (value := 21)
           eq_refl eq_refl eq_refl).
Defined.

Lemma early_exception_skips_use_case_witness :
  useCaseCalls
    (exec (handler sampleVersion (alarmedDeps typeError) sampleCtx)
       (emptyWorld Z)) = [] /\
  metadataCache
    (exec (handler sampleVersion (alarmedDeps typeError) sampleCtx)
       (emptyWorld Z)) = None.
Proof.
  exact (early_exception_skips_use_case sampleVersion
           (alarmedDeps typeError) sampleCtx (emptyWorld Z) (e := typeError)
           (or_introl eq_refl)).
Defined.


(** *** The promise of line 92 and the catch of line 127 *)

(** C4: the claim has the handler catch an AvataxInvalidAddressError
    raised outside the use case's Result and answer 400 with the fixed
    address message.  On the request below the error is the reason the
    promise of the use case rejects with.  The promise is returned at
    line 92 without [await], so the [catch] of line 127 does not run: the
    handler's promise rejects with the address error and no response is
    sent, where the claim has the 400 response. *)
Theorem address_error_rejecting_the_use_case_promise_is_not_answered :
  thrownAt (sampleDeps quietLogger (Rejects addressError)) sampleCtx
    AtCalculateTaxesPromise = Some addressError /\
  instanceofAvataxInvalidAddressError addressError = true /\
  completion
    (handler sampleVersion (sampleDeps quietLogger (Rejects addressError))
       sampleCtx) (emptyWorld Z) = Throw addressError /\
  responses
    (exec
       (handler sampleVersion (sampleDeps quietLogger (Rejects addressError))
          sampleCtx) (emptyWorld Z)) = [] /\
  responses
    (exec
       (handler sampleVersion (sampleDeps quietLogger (Rejects addressError))
          sampleCtx) (emptyWorld Z)) <> [invalidAddressResponse].
Proof.
  repeat split. vm_compute. discriminate.
Qed.

(** C8: the claim has every exception that is not an
    AvataxInvalidAddressError caught at the outermost handler boundary,
    reported to the error tracker and answered 500 with the body
    [{message: "Unhandled error"}].  On the request below the promise of
    the use case rejects with a TypeError.  The promise is returned at
    line 92 without [await], so the [catch] of line 127 does not run: the
    handler's promise rejects with the TypeError, nothing is reported and
    no response is sent, where the claim has the report and the 500
    response. *)
Theorem exception_rejecting_the_use_case_promise_is_not_answered :
  thrownAt (sampleDeps quietLogger (Rejects typeError)) sampleCtx
    AtCalculateTaxesPromise = Some typeError /\
  instanceofAvataxInvalidAddressError typeError = false /\
  completion
    (handler sampleVersion (sampleDeps quietLogger (Rejects typeError))
       sampleCtx) (emptyWorld Z) = Throw typeError /\
  captured
    (exec
       (handler sampleVersion (sampleDeps quietLogger (Rejects typeError))
          sampleCtx) (emptyWorld Z)) = [] /\
  responses
    (exec
       (handler sampleVersion (sampleDeps quietLogger (Rejects typeError))
          sampleCtx) (emptyWorld Z)) = [] /\
  responses
    (exec
       (handler sampleVersion (sampleDeps quietLogger (Rejects typeError))
          sampleCtx) (emptyWorld Z)) <> [unhandledErrorResponse].
Proof.
  repeat split. vm_compute. discriminate.
Qed.

End AvataxFacts.

(** ** Facts about the Typesense webhooks-status handler *)

Module TypesenseFacts.

Import Typesense.

Section Facts.

Variable OwnWebhookFragment : Type.
Variable name : OwnWebhookFragment -> string.
Variable isWebhookUpdateNeeded : list string -> bool.

Local Abbreviation World := (Typesense.World OwnWebhookFragment).
Local Abbreviation Props := (FactoryProps OwnWebhookFragment).

Implicit Types (w : World) (props : Props).

(** Fetching the webhooks and answering never touches the toggler. *)
Lemma fetchAndRespond_keeps_calls (client : Client OwnWebhookFragment)
    (authData : AuthData) w :
  disableOwnWebhooksCalls
    (exec (fetchAndRespond name isWebhookUpdateNeeded client authData) w)
  = disableOwnWebhooksCalls w.
Proof.
  unfold exec, fetchAndRespond, await. js_unfold. unfold debug.
  destruct (query client (appId authData)) as [r | e]; js_unfold;
    [destruct (webhooksOf r) |]; reflexivity.
Qed.

(** The settings check, by the stored configuration and the ping. *)
Lemma checkSettings_calls props (config : AppConfig)
    (toggler : WebhookActivityToggler) w :
  disableOwnWebhooksCalls (exec (checkSettings props config toggler) w) =
    (disableOwnWebhooksCalls w +
     if settingsMissingOrPingFails props config then 1 else 0)%nat.
Proof.
  unfold exec, checkSettings, settingsMissingOrPingFails, searchProviderOf,
    callDisableOwnWebhooks, callPing, await.
  destruct (appConfig config) as [c |]; js_unfold;
    unfold debug, recordPing, recordDisableOwnWebhooks.
  - destruct (ping _) as [[] | e]; js_unfold;
      [| destruct (disableOwnWebhooks toggler) as [[] | e']]; cbn; lia.
  - destruct (disableOwnWebhooks toggler) as [[] | e']; cbn; lia.
Qed.

(** C9: once the stored configuration has been read, the handler calls
    [disableOwnWebhooks] once when the configuration has no [appConfig] or
    the ping to Typesense throws, and not at all when the configuration is
    present and the ping succeeds. *)
Theorem webhooks_disabled_iff_settings_missing_or_ping_fails
    props (authData : AuthData) (config : AppConfig) w :
  storedConfig props authData = Fulfilled config ->
  disableOwnWebhooksCalls
    (exec (webhooksStatusHandlerFactory name isWebhookUpdateNeeded
             props authData) w) =
    (disableOwnWebhooksCalls w +
     if settingsMissingOrPingFails props config then 1 else 0)%nat /\
  (settingsMissingOrPingFails props config = true <->
   appConfig config = None \/
   exists c e, appConfig config = Some c /\
               ping (searchProviderOf props config c) = Rejected e) /\
  (forall c,
     appConfig config = Some c ->
     ping (searchProviderOf props config c) = Fulfilled tt ->
     disableOwnWebhooksCalls
       (exec (webhooksStatusHandlerFactory name isWebhookUpdateNeeded
                props authData) w) = disableOwnWebhooksCalls w).
Proof.
  intros Hcfg.
  assert (Hcount :
    disableOwnWebhooksCalls
      (exec (webhooksStatusHandlerFactory name isWebhookUpdateNeeded
               props authData) w) =
    (disableOwnWebhooksCalls w +
     if settingsMissingOrPingFails props config then 1 else 0)%nat).
  { unfold storedConfig in Hcfg.
    unfold exec, webhooksStatusHandlerFactory, await. js_unfold.
    rewrite Hcfg. js_unfold. unfold debug at 1.
    pose proof (checkSettings_calls props config
                  (togglerOf props authData)
                  {| debugLog := (debugLog w ++ ["fetched settings"])%list;
                     pingCalls := pingCalls w;
                     disableOwnWebhooksCalls := disableOwnWebhooksCalls w;
                     responses := responses w |}) as Hcheck.
    unfold exec, togglerOf in Hcheck. cbn [disableOwnWebhooksCalls] in Hcheck.
    destruct (checkSettings props config _ _) as [[[] | e] w1];
      cbn [snd] in *.
    - rewrite <- Hcheck.
      apply (fetchAndRespond_keeps_calls
               (graphqlClientFactory props (saleorApiUrl authData)
                  (token authData)) authData w1).
    - exact Hcheck. }
  split; [exact Hcount |]. split.
  - unfold settingsMissingOrPingFails.
    destruct (appConfig config) as [c |].
    + destruct (ping (searchProviderOf props config c)) as [[] | e] eqn:Hp.
      * split; [discriminate |].
        intros [Hnone | (c' & e & Hsome & Hrej)]; [discriminate |].
        inversion Hsome; subst. rewrite Hp in Hrej. discriminate.
      * split; [| reflexivity]. intros _. right. exists c, e. auto.
    + split; [intros _; left |]; reflexivity.
  - intros c Hsome Hp. rewrite Hcount.
    unfold settingsMissingOrPingFails. rewrite Hsome, Hp. lia.
Qed.

(** *** Further facts about the handler *)

Ltac ts_run :=
  js_unfold;
  cbv beta iota zeta
      delta [debug respond recordPing recordDisableOwnWebhooks await
             callPing callDisableOwnWebhooks];
  js_unfold.

(** X11: the handler answers exactly once when its promise fulfils, and
    not at all when it rejects. *)
Theorem answers_exactly_when_fulfilled props (authData : AuthData) w :
  (completion (webhooksStatusHandlerFactory name isWebhookUpdateNeeded
                 props authData) w = Normal tt /\
   exists r,
     responses (exec (webhooksStatusHandlerFactory name isWebhookUpdateNeeded
                        props authData) w)
       = (responses w ++ [r])%list)
  \/
  (exists e,
     completion (webhooksStatusHandlerFactory name isWebhookUpdateNeeded
                   props authData) w = Throw e /\
     responses (exec (webhooksStatusHandlerFactory name isWebhookUpdateNeeded
                        props authData) w)
       = responses w).
Proof.
  unfold completion, exec, webhooksStatusHandlerFactory, checkSettings,
    fetchAndRespond.
  ts_run.
  destruct (configManagerGet _ _) as [config | e]; ts_run;
    [| right; exists e; split; reflexivity].
  destruct (appConfig config) as [c |]; ts_run.
  - destruct (ping _) as [[] | e]; ts_run.
    + destruct (query _ _) as [r | e]; ts_run;
        [destruct (webhooksOf r); ts_run |];
        left; split; [reflexivity | eexists; reflexivity | reflexivity
                     | eexists; reflexivity | reflexivity
                     | eexists; reflexivity].
    + destruct (disableOwnWebhooks _) as [[] | e']; ts_run;
        [| right; exists e'; split; reflexivity].
      destruct (query _ _) as [r | e'']; ts_run;
        [destruct (webhooksOf r); ts_run |];
        left; split; [reflexivity | eexists; reflexivity | reflexivity
                     | eexists; reflexivity | reflexivity
                     | eexists; reflexivity].
  - destruct (disableOwnWebhooks _) as [[] | e']; ts_run;
      [| right; exists e'; split; reflexivity].
    destruct (query _ _) as [r | e'']; ts_run;
      [destruct (webhooksOf r); ts_run |];
      left; split; [reflexivity | eexists; reflexivity | reflexivity
                   | eexists; reflexivity | reflexivity
                   | eexists; reflexivity].
Qed.

(** X12: when the stored configuration is read and disabling the
    webhooks (if it is asked for) succeeds, the answer is decided by the
    webhooks query alone: 200 with the fetched webhooks and
    [isUpdateNeeded] computed from their names when the query yields a
    list (an empty list included); 500 with an empty body when the query
    rejects or yields no list.  Neither the configuration nor the ping
    changes it. *)
Theorem answer_is_decided_by_the_query
    props (authData : AuthData) (config : AppConfig) w :
  storedConfig props authData = Fulfilled config ->
  (settingsMissingOrPingFails props config = true ->
   disableOwnWebhooks (togglerOf props authData) = Fulfilled tt) ->
  responses (exec (webhooksStatusHandlerFactory name isWebhookUpdateNeeded
                     props authData) w) =
    (responses w ++
     [match query (clientOf props authData) (appId authData) with
      | Fulfilled r =>
          match webhooksOf r with
          | Some fetched =>
              {| status := 200;
                 body := JsonStatus fetched
                           (isWebhookUpdateNeeded (map name fetched)) |}
          | None => {| status := 500; body := EmptyBody |}
          end
      | Rejected _ => {| status := 500; body := EmptyBody |}
      end])%list.
Proof.
  unfold storedConfig, settingsMissingOrPingFails, searchProviderOf,
    togglerOf, clientOf.
  intros Hcfg Hdis.
  unfold exec, webhooksStatusHandlerFactory, checkSettings, fetchAndRespond.
  ts_run. rewrite Hcfg. ts_run.
  destruct (appConfig config) as [c |]; ts_run.
  - destruct (ping _) as [[] | e]; ts_run.
    + destruct (query _ _) as [r | e]; ts_run;
        [destruct (webhooksOf r); ts_run |]; reflexivity.
    + rewrite (Hdis eq_refl). ts_run.
      destruct (query _ _) as [r | e']; ts_run;
        [destruct (webhooksOf r); ts_run |]; reflexivity.
  - rewrite (Hdis eq_refl). ts_run.
    destruct (query _ _) as [r | e']; ts_run;
      [destruct (webhooksOf r); ts_run |]; reflexivity.
Qed.

(** X13: when reading the stored configuration rejects, the handler's
    promise rejects with the same reason and nothing else happens: no
    ping, no webhook is disabled, no response is sent. *)
Theorem unreadable_config_rejects props (authData : AuthData) e w :
  storedConfig props authData = Rejected e ->
  webhooksStatusHandlerFactory name isWebhookUpdateNeeded props authData w
    = (Throw e, w).
Proof.
  unfold storedConfig. intros Hcfg.
  unfold webhooksStatusHandlerFactory. ts_run. rewrite Hcfg. reflexivity.
Qed.

(** X14: a rejection of [disableOwnWebhooks] is not caught: when the
    handler asks for the webhooks to be disabled and that rejects, the
    handler's promise rejects with the same reason and no response is
    sent. *)
Theorem failed_disable_rejects
    props (authData : AuthData) (config : AppConfig) e w :
  storedConfig props authData = Fulfilled config ->
  settingsMissingOrPingFails props config = true ->
  disableOwnWebhooks (togglerOf props authData) = Rejected e ->
  completion (webhooksStatusHandlerFactory name isWebhookUpdateNeeded
                props authData) w = Throw e /\
  responses (exec (webhooksStatusHandlerFactory name isWebhookUpdateNeeded
                     props authData) w) = responses w.
Proof.
  unfold storedConfig, settingsMissingOrPingFails, searchProviderOf, togglerOf.
  intros Hcfg Hneed Hdis.
  unfold completion, exec, webhooksStatusHandlerFactory, checkSettings.
  ts_run. rewrite Hcfg. ts_run.
  destruct (appConfig config) as [c |]; ts_run.
  - destruct (ping _) as [[] | e0]; [discriminate Hneed |]. ts_run.
    rewrite Hdis. ts_run. split; reflexivity.
  - rewrite Hdis. ts_run. split; reflexivity.
Qed.

(** X15: once the stored configuration has been read, Typesense is
    pinged once when the configuration has an [appConfig] and not at all
    when it has none. *)
Theorem pinged_exactly_when_configured
    props (authData : AuthData) (config : AppConfig) w :
  storedConfig props authData = Fulfilled config ->
  pingCalls (exec (webhooksStatusHandlerFactory name isWebhookUpdateNeeded
                     props authData) w) =
    (pingCalls w +
     match appConfig config with Some _ => 1 | None => 0 end)%nat.
Proof.
  unfold storedConfig. intros Hcfg.
  unfold exec, webhooksStatusHandlerFactory, checkSettings, fetchAndRespond.
  ts_run. rewrite Hcfg. ts_run.
  destruct (appConfig config) as [c |]; ts_run.
  - destruct (ping _) as [[] | e]; ts_run;
      [| destruct (disableOwnWebhooks _) as [[] | e']; ts_run];
      try (destruct (query _ _) as [r | e'']; ts_run;
           [destruct (webhooksOf r); ts_run |]);
      cbn; lia.
  - destruct (disableOwnWebhooks _) as [[] | e']; ts_run;
      try (destruct (query _ _) as [r | e'']; ts_run;
           [destruct (webhooksOf r); ts_run |]);
      cbn; lia.
Qed.

(** X23: the handler's promise rejects only when reading the stored
    configuration rejects, or when disabling the webhooks was asked for
    and rejects; a failing ping or a failing webhooks query never rejects
    it. *)
Theorem rejects_only_on_config_or_disable
    props (authData : AuthData) e w :
  completion (webhooksStatusHandlerFactory name isWebhookUpdateNeeded
                props authData) w = Throw e ->
  storedConfig props authData = Rejected e \/
  exists config,
    storedConfig props authData = Fulfilled config /\
    settingsMissingOrPingFails props config = true /\
    disableOwnWebhooks (togglerOf props authData) = Rejected e.
Proof.
  unfold storedConfig, settingsMissingOrPingFails, searchProviderOf, togglerOf.
  unfold completion, webhooksStatusHandlerFactory, checkSettings,
    fetchAndRespond.
  ts_run.
  destruct (configManagerGet _ _) as [config | e0]; ts_run;
    [| cbn; intro H; left; congruence].
  intro H. right. exists config. split; [reflexivity |]. revert H.
  destruct (appConfig config) as [c |]; ts_run.
  - destruct (ping _) as [[] | e1]; ts_run.
    + destruct (query _ _) as [r | e2]; ts_run;
        [destruct (webhooksOf r); ts_run |]; cbn; discriminate.
    + destruct (disableOwnWebhooks _) as [[] | e2]; ts_run.
      * destruct (query _ _) as [r | e3]; ts_run;
          [destruct (webhooksOf r); ts_run |]; cbn; discriminate.
      * cbn. intro H. split; congruence.
  - destruct (disableOwnWebhooks _) as [[] | e2]; ts_run.
    + destruct (query _ _) as [r | e3]; ts_run;
        [destruct (webhooksOf r); ts_run |]; cbn; discriminate.
    + cbn. intro H. split; congruence.
Qed.

End Facts.

Lemma webhooks_disabled_iff_settings_missing_or_ping_fails_witness :
  disableOwnWebhooksCalls
    (exec (webhooksStatusHandlerFactory (fun n => n) (fun _ => false)
             (sampleProps (Some sampleTypesenseConfig)
                (Rejected connectionRefused))
             sampleAuthData) emptyWorld) = 1%nat /\
  disableOwnWebhooksCalls
    (exec (webhooksStatusHandlerFactory (fun n => n) (fun _ => false)
             (sampleProps (Some sampleTypesenseConfig) (Fulfilled tt))
             sampleAuthData) emptyWorld) = 0%nat /\
  disableOwnWebhooksCalls
    (exec (webhooksStatusHandlerFactory (fun n => n) (fun _ => false)
             (sampleProps None (Fulfilled tt))
             sampleAuthData) emptyWorld) = 1%nat.
Proof.
  split; [| split].
  - exact (proj1
      (webhooks_disabled_iff_settings_missing_or_ping_fails
         (fun n => n) (fun _ => false)
         (sampleProps (Some sampleTypesenseConfig) (Rejected connectionRefused))
         sampleAuthData (config := sampleConfig (Some sampleTypesenseConfig))
         emptyWorld eq_refl)).
  - exact (proj2 (proj2
      (webhooks_disabled_iff_settings_missing_or_ping_fails
         (fun n => n) (fun _ => false)
         (sampleProps (Some sampleTypesenseConfig) (Fulfilled tt))
         sampleAuthData (config := sampleConfig (Some sampleTypesenseConfig))
         emptyWorld eq_refl)) sampleTypesenseConfig eq_refl eq_refl).
  - exact (proj1
      (webhooks_disabled_iff_settings_missing_or_ping_fails
         (fun n => n) (fun _ => false)
         (sampleProps None (Fulfilled tt))
         sampleAuthData (config := sampleConfig None)
         emptyWorld eq_refl)).
Defined.

Lemma answer_is_decided_by_the_query_witness :
  responses
    (exec (webhooksStatusHandlerFactory (fun n => n) (fun _ => false)
             (sampleProps None (Fulfilled tt)) sampleAuthData) emptyWorld) =
    [{| status := 200; body := JsonStatus ["PRODUCT_CREATED"] false |}] /\
  responses
    (exec (webhooksStatusHandlerFactory (fun n => n) (fun _ => false)
             (flakyProps (Fulfilled (sampleConfig (Some sampleTypesenseConfig)))
                (Fulfilled tt) (Fulfilled {| data := None |}))
             sampleAuthData) emptyWorld) =
    [{| status := 500; body := EmptyBody |}].
Proof.
  split.
  - apply (answer_is_decided_by_the_query (fun n => n) (fun _ => false)
             (sampleProps None (Fulfilled tt)) sampleAuthData
             (config := sampleConfig None) emptyWorld eq_refl).
    intros _. reflexivity.
  - apply (answer_is_decided_by_the_query (fun n => n) (fun _ => false)
             (flakyProps (Fulfilled (sampleConfig (Some sampleTypesenseConfig)))
                (Fulfilled tt) (Fulfilled {| data := None |}))
             sampleAuthData
             (config := sampleConfig (Some sampleTypesenseConfig))
             emptyWorld eq_refl).
    intros _. reflexivity.
Defined.

Lemma unreadable_config_rejects_witness :
  webhooksStatusHandlerFactory (fun n => n) (fun _ => false)
    (flakyProps (Rejected connectionRefused) (Fulfilled tt)
       (Fulfilled {| data := None |}))
    sampleAuthData emptyWorld
  = (Throw connectionRefused, emptyWorld).
Proof.
  exact (unreadable_config_rejects (fun n => n) (fun _ => false)
           (flakyProps (Rejected connectionRefused) (Fulfilled tt)
              (Fulfilled {| data := None |}))
           sampleAuthData (e := connectionRefused) emptyWorld eq_refl).
Defined.

Lemma failed_disable_rejects_witness :
  completion
    (webhooksStatusHandlerFactory (fun n => n) (fun _ => false)
       (flakyProps (Fulfilled (sampleConfig None))
          (Rejected connectionRefused) (Fulfilled {| data := None |}))
       sampleAuthData) emptyWorld = Throw connectionRefused /\
  responses
    (exec
       (webhooksStatusHandlerFactory (fun n => n) (fun _ => false)
          (flakyProps (Fulfilled (sampleConfig None))
             (Rejected connectionRefused) (Fulfilled {| data := None |}))
          sampleAuthData) emptyWorld) = [].
Proof.
  exact (failed_disable_rejects (fun n => n) (fun _ => false)
           (flakyProps (Fulfilled (sampleConfig None))
              (Rejected connectionRefused) (Fulfilled {| data := None |}))
           sampleAuthData (config := sampleConfig None)
           (e := connectionRefused) emptyWorld eq_refl eq_refl eq_refl).
Defined.

Lemma pinged_exactly_when_configured_witness :
  pingCalls
    (exec (webhooksStatusHandlerFactory (fun n => n) (fun _ => false)
             (sampleProps (Some sampleTypesenseConfig) (Fulfilled tt))
             sampleAuthData) emptyWorld) = 1%nat /\
  pingCalls
    (exec (webhooksStatusHandlerFactory (fun n => n) (fun _ => false)
             (sampleProps None (Fulfilled tt))
             sampleAuthData) emptyWorld) = 0%nat.
Proof.
  split.
  - exact (pinged_exactly_when_configured (fun n => n) (fun _ => false)
             (sampleProps (Some sampleTypesenseConfig) (Fulfilled tt))
             sampleAuthData
             (config := sampleConfig (Some sampleTypesenseConfig))
             emptyWorld eq_refl).
  - exact (pinged_exactly_when_configured (fun n => n) (fun _ => false)
             (sampleProps None (Fulfilled tt))
             sampleAuthData (config := sampleConfig None)
             emptyWorld eq_refl).
Defined.

Lemma rejects_only_on_config_or_disable_witness :
  storedConfig
    (flakyProps (Fulfilled (sampleConfig None))
       (Rejected connectionRefused) (Fulfilled {| data := None |}))
    sampleAuthData = Rejected connectionRefused \/
  exists config,
    storedConfig
      (flakyProps (Fulfilled (sampleConfig None))
         (Rejected connectionRefused) (Fulfilled {| data := None |}))
      sampleAuthData = Fulfilled config /\
    settingsMissingOrPingFails
      (flakyProps (Fulfilled (sampleConfig None))
         (Rejected connectionRefused) (Fulfilled {| data := None |}))
      config = true /\
    disableOwnWebhooks
      (togglerOf
         (flakyProps (Fulfilled (sampleConfig None))
            (Rejected connectionRefused) (Fulfilled {| data := None |}))
         sampleAuthData) = Rejected connectionRefused.
Proof.
  exact (rejects_only_on_config_or_disable (fun n => n) (fun _ => false)
           (flakyProps (Fulfilled (sampleConfig None))
              (Rejected connectionRefused) (Fulfilled {| data := None |}))
           sampleAuthData (e := connectionRefused) emptyWorld eq_refl).
Defined.

End TypesenseFacts.

(** ** Facts about the product import component *)

Module ImportProductsFacts.

Import ImportProducts.

Section Facts.

Variable Product : Type.
Variable Variant : Type.
Variable variants : Product -> option (list Variant).

Local Abbreviation World := (ImportProducts.World Product).

Implicit Types (w : World) (products : list Product)
  (provider : option ProviderOptions)
  (upload : list Product -> Settled unit).

Local Open Scope nat_scope.

Ltac ip_run :=
  js_unfold;
  cbv beta iota zeta
      delta [setState setTypesenseConfigured setStarted setCurrentProductIndex
             setIsTypesenseImporting setAllImported recordUpload await];
  js_unfold.

(** *** Counting variants *)

Lemma fold_count_from (l : list Product) (a : nat) :
  fold_left (fun acc p => acc + variantsIn variants p) l a =
  a + fold_left (fun acc p => acc + variantsIn variants p) l 0.
Proof.
  revert a; induction l as [| p l IH]; intro a; cbn.
  - lia.
  - rewrite IH, (IH (variantsIn variants p)). lia.
Qed.

Lemma countVariants_fold products (index : nat) :
  countVariants variants products index =
  fold_left (fun acc p => acc + variantsIn variants p) (firstn index products) 0.
Proof.
  unfold countVariants, slice. rewrite Nat.sub_0_r. reflexivity.
Qed.

Lemma firstn_plus {A} (i k : nat) (l : list A) :
  firstn (i + k) l = (firstn i l ++ firstn k (skipn i l))%list.
Proof.
  revert l; induction i as [| i IH]; intro l; cbn.
  - reflexivity.
  - destruct l as [| x l]; cbn.
    + destruct k; reflexivity.
    + rewrite IH. reflexivity.
Qed.

Lemma countVariants_split products (index k : nat) :
  countVariants variants products (index + k) =
  countVariants variants products index
  + countVariants variants (skipn index products) k.
Proof.
  rewrite !countVariants_fold, firstn_plus, fold_left_app.
  apply fold_count_from.
Qed.

Lemma countVariants_clipped products (index : nat) :
  length products <= index ->
  countVariants variants products index
  = countVariants variants products (length products).
Proof.
  intros Hle. rewrite !countVariants_fold, !firstn_all2 by lia. reflexivity.
Qed.

(** X16: the count up to [index + k] is the count up to [index] plus the
    count of the next [k] products: the displayed counter grows with each
    batch by the variants of that batch. *)
Theorem countVariants_add products (index k : nat) :
  countVariants variants products (index + k) =
  countVariants variants products index
  + countVariants variants (skipn index products) k.
Proof.
  rewrite (countVariants_split products index k). reflexivity.
Qed.

(** X17: the count never decreases with the index and never exceeds the
    total shown beside it. *)
Theorem countVariants_monotone products (i j : nat) :
  i <= j ->
  countVariants variants products i <= countVariants variants products j /\
  countVariants variants products i <= totalVariantCount variants products.
Proof.
  intros Hij. split.
  - replace j with (i + (j - i)) by lia. rewrite countVariants_split. lia.
  - unfold totalVariantCount.
    destruct (Nat.le_gt_cases i (length products)) as [Hle | Hgt].
    + replace (length products) with (i + (length products - i)) by lia.
      rewrite countVariants_split. lia.
    + rewrite countVariants_clipped by lia. lia.
Qed.

(** X18: an index at or beyond the end of the list counts every product:
    once the import index has passed the end, the counter shows the
    total. *)
Theorem countVariants_beyond_the_end products (index : nat) :
  length products <= index ->
  countVariants variants products index = totalVariantCount variants products.
Proof.
  intros Hle. unfold totalVariantCount.
  apply countVariants_clipped. exact Hle.
Qed.

(** *** The import effect *)

(** The effect does nothing when the import has not been started or a
    batch is in flight. *)
Lemma importEffect_idle provider upload products w :
  started (state w) && negb (isTypesenseImporting (state w)) = false ->
  importEffect provider upload products w = (Normal tt, w).
Proof.
  intros H. unfold importEffect. rewrite H. reflexivity.
Qed.

(** With no provider, or with the index at or beyond the end of the
    list, the effect sets the in-flight flag and resets it. *)
Lemma importEffect_nothing_left provider upload products w :
  started (state w) = true ->
  isTypesenseImporting (state w) = false ->
  provider = None \/ length products <= currentProductIndex (state w) ->
  importEffect provider upload products w = (Normal tt, w).
Proof.
  intros Hs Hi Hend. unfold importEffect, importBatch.
  rewrite Hs, Hi. cbn [andb negb].
  assert (Htest :
    (match provider with Some _ => false | None => true end
     || (length products <=? currentProductIndex (state w))) = true).
  { destruct Hend as [-> | Hle]; [reflexivity |].
    apply Nat.leb_le in Hle. rewrite Hle. apply orb_true_r. }
  ip_run. cbn [state currentProductIndex]. rewrite Htest. ip_run.
  destruct w as [[tc st idx imp allI] up]; cbn in *; subst. reflexivity.
Qed.

(** With a provider and products left, the effect uploads one batch. *)
Lemma importEffect_uploads (options : ProviderOptions) upload products w :
  started (state w) = true ->
  isTypesenseImporting (state w) = false ->
  currentProductIndex (state w) < length products ->
  importEffect (Some options) upload products w =
    match upload (slice (currentProductIndex (state w))
                    (currentProductIndex (state w) + BATCH_SIZE) products) with
    | Fulfilled _ =>
        (Normal tt,
         {| state :=
              {| typesenseConfigured := typesenseConfigured (state w);
                 started := true;
                 currentProductIndex :=
                   currentProductIndex (state w) + BATCH_SIZE;
                 isTypesenseImporting := false;
                 allImported :=
                   if length products
                      <=? currentProductIndex (state w) + BATCH_SIZE
                   then true else allImported (state w) |};
            uploaded :=
              (uploaded w ++
               [slice (currentProductIndex (state w))
                  (currentProductIndex (state w) + BATCH_SIZE) products])%list |})
    | Rejected e =>
        (Throw e,
         {| state :=
              {| typesenseConfigured := typesenseConfigured (state w);
                 started := true;
                 currentProductIndex := currentProductIndex (state w);
                 isTypesenseImporting := true;
                 allImported := allImported (state w) |};
            uploaded :=
              (uploaded w ++
               [slice (currentProductIndex (state w))
                  (currentProductIndex (state w) + BATCH_SIZE) products])%list |})
    end.
Proof.
  intros Hs Hi Hlt. unfold importEffect, importBatch.
  rewrite Hs, Hi. cbn [andb negb orb].
  apply Nat.leb_gt in Hlt.
  ip_run. cbn [state currentProductIndex]. rewrite Hlt. ip_run.
  cbn [state uploaded started currentProductIndex typesenseConfigured
       isTypesenseImporting allImported].
  rewrite Hs.
  destruct (upload _) as [[] | e]; ip_run; [| reflexivity].
  cbn [state uploaded started currentProductIndex typesenseConfigured
       isTypesenseImporting allImported].
  destruct (length products <=? currentProductIndex (state w) + BATCH_SIZE);
    ip_run; reflexivity.
Qed.

Lemma between_batches_step (options : ProviderOptions) upload products w :
  (forall batch, upload batch = Fulfilled tt) ->
  between_batches products w ->
  between_batches products
    (exec (importEffect (Some options) upload products) w) /\
  currentProductIndex
    (state (exec (importEffect (Some options) upload products) w)) =
    if length products <=? currentProductIndex (state w)
    then currentProductIndex (state w)
    else currentProductIndex (state w) + BATCH_SIZE.
Proof.
  intros Hup (Hs & Hi & Hcat & Hidx & Hall & Hdone).
  unfold exec.
  destruct (Nat.le_gt_cases (length products) (currentProductIndex (state w)))
    as [Hle | Hlt].
  - rewrite importEffect_nothing_left by auto. cbn [snd].
    rewrite (proj2 (Nat.leb_le _ _) Hle).
    split; [exact (conj Hs (conj Hi (conj Hcat (conj Hidx (conj Hall Hdone)))))
           | reflexivity].
  - rewrite importEffect_uploads, Hup by assumption. cbn [snd].
    rewrite (proj2 (Nat.leb_gt _ _) Hlt).
    split; [| reflexivity].
    unfold between_batches.
    cbn [state uploaded started currentProductIndex isTypesenseImporting
         allImported].
    repeat split.
    + rewrite concat_app, Hcat. cbn [concat]. rewrite app_nil_r.
      unfold slice.
      replace (currentProductIndex (state w) + BATCH_SIZE
               - currentProductIndex (state w)) with BATCH_SIZE by lia.
      symmetry. apply firstn_plus.
    + rewrite length_app. cbn [length]. lia.
    + apply Forall_app. split; [assumption |].
      constructor; [| constructor].
      unfold batchSized, slice.
      rewrite length_firstn, length_skipn. unfold BATCH_SIZE. lia.
    + rewrite Hdone.
      destruct (Nat.leb_spec (length products)
                  (currentProductIndex (state w) + BATCH_SIZE));
        destruct (Nat.leb_spec (length products)
                    (currentProductIndex (state w)));
        destruct (Nat.eqb_spec (length products) 0); cbn; try reflexivity; lia.
Qed.

Lemma between_batches_renders (options : ProviderOptions) upload products
    (n : nat) w :
  (forall batch, upload batch = Fulfilled tt) ->
  between_batches products w ->
  between_batches products (renders n (Some options) upload products w) /\
  (length products <= currentProductIndex (state w) + BATCH_SIZE * n ->
   length products
   <= currentProductIndex
        (state (renders n (Some options) upload products w))).
Proof.
  intros Hup. revert w.
  induction n as [| n IH]; intros w Hinv; cbn [renders].
  - split; [assumption | lia].
  - destruct (@between_batches_step options upload products w Hup Hinv)
      as (Hinv1 & Hidx1).
    destruct (IH _ Hinv1) as (Hinv2 & Hprog).
    split; [assumption |].
    intros Hroom. apply Hprog. rewrite Hidx1.
    destruct (Nat.leb_spec (length products) (currentProductIndex (state w)));
      lia.
Qed.

(** X19: with a provider, uploads that succeed and an unchanging product
    list, running the import effect often enough after the start uploads
    every product exactly once and in order: the batches, concatenated, are
    the product list; every batch has between 1 and 100 products; the index
    ends at 100 times the number of batches, at or beyond the end of the
    list; no batch is left in flight; the counter shows the total; and the
    import is reported complete exactly when the list is not empty. *)
Theorem import_uploads_every_product_once
    (options : ProviderOptions) upload products (n : nat) :
  (forall batch, upload batch = Fulfilled tt) ->
  length products <= BATCH_SIZE * n ->
  concat (uploaded (renders n (Some options) upload products startedWorld))
    = products /\
  Forall (@batchSized Product)
    (uploaded (renders n (Some options) upload products startedWorld)) /\
  currentProductIndex
    (state (renders n (Some options) upload products startedWorld)) =
    BATCH_SIZE
    * length (uploaded (renders n (Some options) upload products startedWorld))
  /\
  length products
  <= currentProductIndex
       (state (renders n (Some options) upload products startedWorld)) /\
  isTypesenseImporting
    (state (renders n (Some options) upload products startedWorld)) = false /\
  variantCount variants products
    (renders n (Some options) upload products startedWorld)
    = totalVariantCount variants products /\
  allImported
    (state (renders n (Some options) upload products startedWorld))
    = negb (length products =? 0).
Proof.
  intros Hup Hn.
  assert (Hstart : between_batches products (@startedWorld Product)).
  { unfold between_batches, startedWorld.
    cbn [state uploaded started currentProductIndex isTypesenseImporting
         allImported concat firstn length].
    repeat split; try reflexivity; try constructor.
    destruct (length products); reflexivity. }
  destruct (@between_batches_renders options upload products n
              (@startedWorld Product) Hup Hstart)
    as ((Hs & Hi & Hcat & Hidx & Hall & Hdone) & Hprog).
  specialize (Hprog Hn).
  repeat split; try assumption.
  - rewrite Hcat. apply firstn_all2. exact Hprog.
  - unfold variantCount, totalVariantCount.
    apply countVariants_clipped. exact Hprog.
  - rewrite Hdone. apply Nat.leb_le in Hprog. rewrite Hprog.
    apply andb_true_r.
Qed.

(** X20: with an empty product list, or without a search provider, the
    import effect changes nothing however often it runs: nothing is
    uploaded, the index stays, and the import is never reported
    complete. *)
Theorem nothing_to_import_changes_nothing
    provider upload products (n : nat) w :
  products = [] \/ provider = None ->
  renders n provider upload products w = w.
Proof.
  intros Hnothing. induction n as [| n IH]; cbn [renders]; [reflexivity |].
  assert (Hstep : exec (importEffect provider upload products) w = w).
  { unfold exec.
    destruct (started (state w) && negb (isTypesenseImporting (state w)))
      eqn:Hguard.
    - apply andb_true_iff in Hguard. destruct Hguard as (Hs & Hi).
      apply negb_true_iff in Hi.
      rewrite importEffect_nothing_left; [reflexivity | assumption.. |].
      destruct Hnothing as [-> | ->]; [right; cbn; lia | left; reflexivity].
    - rewrite importEffect_idle by assumption. reflexivity. }
  rewrite Hstep. exact IH.
Qed.

(** X21: when the upload of a batch rejects, the promise of
    [importBatch] rejects with the same reason and the in-flight flag is
    never reset: the index and the completion flag stay as they were, and
    no later run of the effect uploads anything. *)
Theorem failed_upload_stalls_the_import
    (options : ProviderOptions) upload products w e :
  started (state w) = true ->
  isTypesenseImporting (state w) = false ->
  currentProductIndex (state w) < length products ->
  upload (slice (currentProductIndex (state w))
            (currentProductIndex (state w) + BATCH_SIZE) products)
    = Rejected e ->
  completion (importEffect (Some options) upload products) w = Throw e /\
  isTypesenseImporting
    (state (exec (importEffect (Some options) upload products) w)) = true /\
  currentProductIndex
    (state (exec (importEffect (Some options) upload products) w))
    = currentProductIndex (state w) /\
  allImported
    (state (exec (importEffect (Some options) upload products) w))
    = allImported (state w) /\
  forall n,
    renders n (Some options) upload products
      (exec (importEffect (Some options) upload products) w)
    = exec (importEffect (Some options) upload products) w.
Proof.
  intros Hs Hi Hlt Hrej.
  unfold completion, exec.
  rewrite importEffect_uploads, Hrej by assumption. cbn [fst snd].
  cbn [state isTypesenseImporting currentProductIndex allImported].
  repeat split.
  intro n. induction n as [| n IH]; cbn [renders]; [reflexivity |].
  unfold exec at 1. rewrite importEffect_idle by reflexivity.
  exact IH.
Qed.

(** X24: the index advances by 100 even after a batch of fewer than 100
    products.  If the product list then grows, the next batch starts at
    the old index plus 100, so the first products that arrived (those
    filling the positions up to that index) are in no batch; and the
    import was already reported complete after the short batch. *)
Theorem growth_after_short_batch_skips_products
    (options : ProviderOptions) upload (l more : list Product) w :
  (forall batch, upload batch = Fulfilled tt) ->
  started (state w) = true ->
  isTypesenseImporting (state w) = false ->
  currentProductIndex (state w) < length l ->
  length l <= currentProductIndex (state w) + BATCH_SIZE ->
  currentProductIndex (state w) + BATCH_SIZE - length l < length more ->
  allImported
    (state (exec (importEffect (Some options) upload l) w)) = true /\
  uploaded
    (exec (importEffect (Some options) upload (l ++ more))
       (exec (importEffect (Some options) upload l) w)) =
    (uploaded w ++
     [skipn (currentProductIndex (state w)) l;
      firstn BATCH_SIZE
        (skipn (currentProductIndex (state w) + BATCH_SIZE - length l)
           more)])%list.
Proof.
  intros Hup Hs Hi Hlt Hshort Hmore.
  unfold exec.
  rewrite (@importEffect_uploads options upload l w Hs Hi Hlt), Hup.
  cbn [snd state allImported].
  rewrite (proj2 (Nat.leb_le _ _) Hshort).
  split; [reflexivity |].
  rewrite importEffect_uploads, Hup;
    cbn [state started isTypesenseImporting currentProductIndex];
    [| reflexivity | reflexivity | rewrite length_app; lia].
  cbn [snd uploaded]. rewrite <- app_assoc. cbn [app].
  f_equal. f_equal; [| f_equal].
  - unfold slice.
    replace (currentProductIndex (state w) + BATCH_SIZE
             - currentProductIndex (state w)) with BATCH_SIZE by lia.
    apply firstn_all2. rewrite length_skipn. lia.
  - unfold slice.
    replace (currentProductIndex (state w) + BATCH_SIZE + BATCH_SIZE
             - (currentProductIndex (state w) + BATCH_SIZE))
      with BATCH_SIZE by lia.
    rewrite skipn_app, (skipn_all2 l) by lia. reflexivity.
Qed.

End Facts.

Lemma countVariants_monotone_witness :
  (countVariants sampleVariants sampleCatalogue 100
   <= countVariants sampleVariants sampleCatalogue 200)%nat /\
  (countVariants sampleVariants sampleCatalogue 100
   <= totalVariantCount sampleVariants sampleCatalogue)%nat.
Proof.
  apply (@countVariants_monotone nat unit sampleVariants sampleCatalogue
            100%nat 200%nat).
  apply Nat.leb_le. vm_compute. reflexivity.
Defined.

Lemma countVariants_beyond_the_end_witness :
  countVariants sampleVariants sampleCatalogue 300
  = totalVariantCount sampleVariants sampleCatalogue.
Proof.
  apply (@countVariants_beyond_the_end nat unit sampleVariants
            sampleCatalogue 300%nat).
  apply Nat.leb_le. vm_compute. reflexivity.
Defined.

Lemma import_uploads_every_product_once_witness :
  concat
    (uploaded
       (renders 3 (Some sampleOptions) alwaysUploads sampleCatalogue
          startedWorld)) = sampleCatalogue /\
  allImported
    (state
       (renders 3 (Some sampleOptions) alwaysUploads sampleCatalogue
          startedWorld)) = true.
Proof.
  assert (Hfits : (length sampleCatalogue <= BATCH_SIZE * 3)%nat).
  { apply Nat.leb_le. vm_compute. reflexivity. }
  destruct (@import_uploads_every_product_once nat unit sampleVariants
              sampleOptions alwaysUploads sampleCatalogue 3%nat
              (fun _ => eq_refl) Hfits)
    as (Hcat & _ & _ & _ & _ & _ & Hdone).
  split; [exact Hcat |]. rewrite Hdone. reflexivity.
Defined.

Lemma nothing_to_import_changes_nothing_witness :
  renders 5 None alwaysUploads sampleCatalogue startedWorld = startedWorld /\
  renders 5 (Some sampleOptions) alwaysUploads [] startedWorld = startedWorld.
Proof.
  split.
  - exact (@nothing_to_import_changes_nothing nat None alwaysUploads
             sampleCatalogue 5%nat startedWorld (or_intror eq_refl)).
  - exact (@nothing_to_import_changes_nothing nat (Some sampleOptions)
             alwaysUploads [] 5%nat startedWorld (or_introl eq_refl)).
Defined.

Lemma failed_upload_stalls_the_import_witness :
  isTypesenseImporting
    (state
       (exec (importEffect (Some sampleOptions) neverUploads sampleCatalogue)
          startedWorld)) = true /\
  currentProductIndex
    (state
       (exec (importEffect (Some sampleOptions) neverUploads sampleCatalogue)
          startedWorld)) = 0%nat.
Proof.
  assert (Hleft : (currentProductIndex (state (@startedWorld nat))
                   < length sampleCatalogue)%nat).
  { apply Nat.ltb_lt. vm_compute. reflexivity. }
  destruct (@failed_upload_stalls_the_import nat sampleOptions neverUploads
              sampleCatalogue startedWorld _ eq_refl eq_refl Hleft eq_refl)
    as (_ & Hi & Hidx & _).
  exact (conj Hi Hidx).
Defined.

Lemma growth_after_short_batch_skips_products_witness :
  uploaded
    (exec (importEffect (Some sampleOptions) alwaysUploads
             (seq 0 50 ++ seq 50 250))
       (exec (importEffect (Some sampleOptions) alwaysUploads (seq 0 50))
          startedWorld)) =
    [seq 0 50; seq 100 100].
Proof.
  assert (H1 : (currentProductIndex (state (@startedWorld nat))
                < length (seq 0 50))%nat).
  { apply Nat.ltb_lt. vm_compute. reflexivity. }
  assert (H2 : (length (seq 0 50)
                <= currentProductIndex (state (@startedWorld nat))
                   + BATCH_SIZE)%nat).
  { apply Nat.leb_le. vm_compute. reflexivity. }
  assert (H3 : (currentProductIndex (state (@startedWorld nat)) + BATCH_SIZE
                - length (seq 0 50) < length (seq 50 250))%nat).
  { apply Nat.ltb_lt. vm_compute. reflexivity. }
  rewrite (proj2
    (@growth_after_short_batch_skips_products nat sampleOptions alwaysUploads
       (seq 0 50) (seq 50 250) startedWorld
       (fun _ => eq_refl) eq_refl eq_refl H1 H2 H3)).
  vm_compute. reflexivity.
Defined.

End ImportProductsFacts.
